(** * Timekeeper: pay periods, punches and payroll rows of [app.js]

    A shallow embedding of the client-side logic of the Timekeeper
    application ([src/app.js]) and the properties its specification
    states about it.

    Modelling conventions.
    - The amounts of a pay table (hours, pay, totals) are JavaScript
      Numbers, IEEE 754 binary64 ([Number.t]): [NaN], the two infinities,
      or a finite value held as the rational it is, every operation
      rounding its exact result to the nearest value, a tie to the even
      one.  The two zeros are one value: no operation of the program
      tells them apart.  The [toFixed] rendering is outside the model.
    - Time values and the differences of two of them are integers
      ([Z]), and [computeHours] is given by the quotient [minutes / 60]
      itself ([Q]), of which the Number of the source is the nearest
      binary64 value; [NaN] is [None] where a date computation can
      produce it.
    - A string is a sequence of UTF-16 code units; the model has the
      code units below 256 (the characters U+0000 to U+00FF).
    - A [Date] is its time value: milliseconds since the epoch, or
      [None] for an Invalid Date.  The +-8.64e15 range limit of time
      values is not modelled.
    - The device time zone has a constant offset [tz], the value of
      [getTimezoneOffset()] in minutes (positive west of Greenwich);
      daylight-saving transitions are outside the model.
    - [Date.parse] recognises the date-time string formats the
      application itself writes and reads ([YYYY-MM-DD],
      [YYYY-MM-DDTHH:mm], [YYYY-MM-DDTHH:mm:ss]); every other string is
      an Invalid Date.
    - The database is the [MockFirestore] class of the source: a map
      from collection names to maps from document ids to documents,
      a document being a map from field names to values.
    - Asynchronous functions run to completion one after the other;
      they are state transformers on the database and the list of
      messages shown with [alert]. *)

From Stdlib Require Import ZArith QArith Qround Qabs Qpower Qreduction Lqa.
From Stdlib Require Import String Ascii List Lia Bool.
From stdpp Require Import base gmap strings list.

Local Open Scope string_scope.
Local Open Scope Z_scope.

(** ** JavaScript values *)

Module JS.

Inductive value : Type :=
| VUndefined
| VStr (s : string)
| VNum (q : Q).

(** ToBoolean *)
Definition truthy (v : value) : bool :=
  match v with
  | VUndefined => false
  | VStr s => negb (String.eqb s "")
  | VNum q => negb (Qeq_bool q 0)
  end.

(** [a || b] *)
Definition or (a b : value) : value := if truthy a then a else b.

(** [a === b] *)
Definition strict_eq (a b : value) : bool :=
  match a, b with
  | VUndefined, VUndefined => true
  | VStr s, VStr t => String.eqb s t
  | VNum p, VNum q => Qeq_bool p q
  | _, _ => false
  end.

(** [a < b] and [a > b]: code-unit order on two strings, numeric order on
    two numbers; the mixed cases, which convert to numbers, are taken as
    [false] (the comparison with [NaN]). *)
Definition lt (a b : value) : bool :=
  match a, b with
  | VStr s, VStr t => String.ltb s t
  | VNum p, VNum q => match Qcompare p q with Lt => true | _ => false end
  | _, _ => false
  end.

Definition gt (a b : value) : bool := lt b a.

(** [a <= b] and [a >= b] *)
Definition le (a b : value) : bool :=
  match a, b with
  | VStr s, VStr t => String.leb s t
  | VNum p, VNum q => match Qcompare p q with Gt => false | _ => true end
  | _, _ => false
  end.

Definition ge (a b : value) : bool := le b a.

(** [Math.round]: the nearest integer, ties towards +infinity. *)
Definition Math_round (q : Q) : Z := Qfloor (q + (1 # 2)).

(** [Math.floor] *)
Definition Math_floor (q : Q) : Z := Qfloor q.

(** [s.split(sep)[0]] for a one-character separator. *)
Fixpoint split_head (sep : ascii) (s : string) : string :=
  match s with
  | EmptyString => EmptyString
  | String c r => if Ascii.eqb c sep then EmptyString else String c (split_head sep r)
  end.

(** A string that [split_head] reads through: it has no separator. *)
Definition passes (c : ascii) (s : string) : Prop :=
  forall r, split_head c (s ++ r)%string = (s ++ split_head c r)%string.

(** The white space and line terminators that [trim] removes, among the
    code units below 256: TAB, LF, VT, FF, CR, SP and NBSP (U+00A0). *)
Definition is_space (c : ascii) : bool :=
  let n := N_of_ascii c in
  (N.eqb n 32 || N.eqb n 9 || N.eqb n 10 || N.eqb n 11 || N.eqb n 12 || N.eqb n 13
   || N.eqb n 160)%bool.

Fixpoint trim_start (s : string) : string :=
  match s with
  | EmptyString => EmptyString
  | String c r => if is_space c then trim_start r else s
  end.

Fixpoint trim_end (s : string) : string :=
  match s with
  | EmptyString => EmptyString
  | String c r =>
      match trim_end r with
      | EmptyString => if is_space c then EmptyString else String c EmptyString
      | r' => String c r'
      end
  end.

(** [s.trim()] *)
Definition trim (s : string) : string := trim_end (trim_start s).

(** What a call yields: a value, or a thrown error with its message. *)
Inductive result (A : Type) : Type :=
| Ok (a : A)
| Throw (msg : string).
Arguments Ok {A} a.
Arguments Throw {A} msg.

End JS.

Export JS.

(** ** Numbers *)

(** The Number values of JavaScript: IEEE 754 binary64. *)
Module Number.

(** A Number: [NaN], [Infinity] or [-Infinity], or a finite value, held
    as the rational number it is. *)
Inductive t : Type :=
| NaN
| Infinity (negative : bool)
| Finite (q : Q).

(** [2 ^ e] *)
Definition pow2 (e : Z) : Q := (2 ^ e)%Q.

(** The binary order of magnitude of a positive rational: the [k] with
    [2^k <= q < 2^(k+1)]. *)
Definition ilog2 (q : Q) : Z :=
  let k := Z.log2 (Qnum q) - Z.log2 (Zpos (Qden q)) in
  if Qle_bool (pow2 k) q then k else k - 1.

(** The exponent of the binary64 values around [q]: they are the
    multiples of [2 ^ exponent q], 53 bits wide from [2^-1022] on and the
    multiples of [2^-1074] below. *)
Definition exponent (q : Q) : Z := Z.max (ilog2 (Qabs q) - 52) (-1074).

(** The nearest integer, a tie going to the even one. *)
Definition round_half_even (q : Q) : Z :=
  let f := Qfloor q in
  match (q - inject_Z f ?= 1 # 2)%Q with
  | Lt => f
  | Gt => f + 1
  | Eq => if Z.even f then f else f + 1
  end.

Definition negative (q : Q) : bool := negb (Qle_bool 0 q).

(** The Number value for a rational: the nearest binary64 value, a tie
    going to the one with the even significand; from [2^1024 - 2^970]
    on, the infinity of its sign.  The result is in lowest terms. *)
Definition of_Q (q : Q) : t :=
  if Qeq_bool q 0 then Finite 0
  else
    let e := exponent q in
    let x := (inject_Z (round_half_even (q / pow2 e)) * pow2 e)%Q in
    if Qle_bool (pow2 1024) (Qabs x) then Infinity (negative q) else Finite (Qred x).

(** [a * b] *)
Definition mul (a b : t) : t :=
  match a, b with
  | NaN, _ | _, NaN => NaN
  | Infinity s, Infinity s' => Infinity (xorb s s')
  | Infinity s, Finite q | Finite q, Infinity s =>
      if Qeq_bool q 0 then NaN else Infinity (xorb s (negative q))
  | Finite p, Finite q => of_Q (p * q)
  end.

(** [a + b] *)
Definition add (a b : t) : t :=
  match a, b with
  | NaN, _ | _, NaN => NaN
  | Infinity s, Infinity s' => if Bool.eqb s s' then Infinity s else NaN
  | Infinity s, Finite _ | Finite _, Infinity s => Infinity s
  | Finite p, Finite q => of_Q (p + q)
  end.

(** [a / b]; a zero divisor is taken as [+0] (the program divides by
    the constants 60, 100 and 60000 only). *)
Definition div (a b : t) : t :=
  match a, b with
  | NaN, _ | _, NaN => NaN
  | Infinity _, Infinity _ => NaN
  | Infinity s, Finite q => Infinity (xorb s (negative q))
  | Finite _, Infinity _ => Finite 0
  | Finite p, Finite q =>
      if Qeq_bool q 0 then (if Qeq_bool p 0 then NaN else Infinity (negative p))
      else of_Q (p / q)
  end.

(** [Math.round]: the nearest integer, ties towards +infinity; it is
    a binary64 value whenever its argument is. *)
Definition Math_round (x : t) : t :=
  match x with
  | Finite q => Finite (inject_Z (Qfloor (q + (1 # 2))))
  | _ => x
  end.

(** The rational a finite Number is. *)
Definition to_Q (x : t) : Q :=
  match x with
  | Finite q => q
  | _ => 0%Q
  end.

(** The finite binary64 values, as rationals: 53 bits at most on a step
    that is [2^-1074] at least, below [2^1024], in lowest terms. *)
Definition representable (x : Q) : Prop :=
  exists m e : Z, -1074 <= e /\ Z.abs m <= 2 ^ 53 /\ (x == inject_Z m * pow2 e)%Q.

Definition valid (x : t) : Prop :=
  match x with
  | Finite q => representable q /\ Qred q = q /\ (Qabs q < pow2 1024)%Q
  | _ => True
  end.

End Number.

(** ** Dates *)

Module JSDate.

Definition msPerMinute : Z := 60000.
Definition msPerHour : Z := 3600000.
Definition msPerDay : Z := 86400000.

(** [Day(t)] and [TimeWithinDay(t)] *)
Definition Day (t : Z) : Z := t / msPerDay.
Definition TimeWithinDay (t : Z) : Z := t mod msPerDay.

(** The proleptic Gregorian calendar on day numbers counted from
    1970-01-01: year, month (1 to 12) and day of the month of a day
    number, computed on 400-year eras that start on 1 March. *)
Definition civil_from_days (z : Z) : Z * Z * Z :=
  let z := z + 719468 in
  let era := z / 146097 in
  let doe := z mod 146097 in
  let yoe := (doe - doe / 1460 + doe / 36524 - doe / 146096) / 365 in
  let y := yoe + era * 400 in
  let doy := doe - (365 * yoe + yoe / 4 - yoe / 100) in
  let mp := (5 * doy + 2) / 153 in
  let d := doy - (153 * mp + 2) / 5 + 1 in
  let m := if mp <? 10 then mp + 3 else mp - 9 in
  (if m <=? 2 then y + 1 else y, m, d).

(** The day number of a year, month (1 to 12) and day of the month. *)
Definition days_from_civil (y m d : Z) : Z :=
  let y := if m <=? 2 then y - 1 else y in
  let era := y / 400 in
  let yoe := y mod 400 in
  let doy := (153 * (if 2 <? m then m - 3 else m + 9) + 2) / 5 + d - 1 in
  let doe := yoe * 365 + yoe / 4 - yoe / 100 + doy in
  era * 146097 + doe - 719468.

Definition YearFromTime (t : Z) : Z := fst (fst (civil_from_days (Day t))).
(** months count from 0 *)
Definition MonthFromTime (t : Z) : Z := snd (fst (civil_from_days (Day t))) - 1.
Definition DateFromTime (t : Z) : Z := snd (civil_from_days (Day t)).

Definition HourFromTime (t : Z) : Z := (t / msPerHour) mod 24.
Definition MinFromTime (t : Z) : Z := (t / msPerMinute) mod 60.
Definition SecFromTime (t : Z) : Z := (t / 1000) mod 60.
Definition msFromTime (t : Z) : Z := t mod 1000.

(** [MakeDay(year, month, date)], the month counted from 0 and carried
    into the year, the date counted from the first of that month. *)
Definition MakeDay (year month date : Z) : Z :=
  let ym := year + month / 12 in
  let mn := month mod 12 in
  days_from_civil ym (mn + 1) 1 + date - 1.

Definition MakeTime (hour min sec ms : Z) : Z :=
  hour * msPerHour + min * msPerMinute + sec * 1000 + ms.

Definition MakeDate (day time : Z) : Z := day * msPerDay + time.

Definition isLeapYear (y : Z) : bool :=
  ((y mod 4 =? 0) && negb (y mod 100 =? 0) || (y mod 400 =? 0))%bool.

Definition DaysInMonth (y m : Z) : Z :=
  if m =? 2 then (if isLeapYear y then 29 else 28)
  else if (m =? 4) || (m =? 6) || (m =? 9) || (m =? 11) then 30
  else 31.

(** *** Decimal digits *)

Definition digit_val (c : ascii) : option Z :=
  let n := Z.of_N (N_of_ascii c) in
  if (48 <=? n) && (n <=? 57) then Some (n - 48) else None.

Definition digit_char (n : Z) : ascii := ascii_of_N (Z.to_N (48 + n)).

Definition num2 (a b : ascii) : option Z :=
  match digit_val a, digit_val b with
  | Some x, Some y => Some (10 * x + y)
  | _, _ => None
  end.

Definition num4 (a b c d : ascii) : option Z :=
  match num2 a b, num2 c d with
  | Some x, Some y => Some (100 * x + y)
  | _, _ => None
  end.

(** The last [n] decimal digits of [z], in front of [acc]. *)
Fixpoint digits (n : nat) (z : Z) (acc : string) : string :=
  match n with
  | O => acc
  | S n' => digits n' (z / 10) (String (digit_char (z mod 10)) acc)
  end.

Definition pad (n : nat) (z : Z) : string := digits n z "".

(** *** The time zone of the device *)

Section Zone.

(** [getTimezoneOffset()], in minutes. *)
Variable tz : Z.

Definition LocalTime (t : Z) : Z := t - tz * msPerMinute.
Definition UTC (t : Z) : Z := t + tz * msPerMinute.

(** *** Parsing *)

Definition parse_ymd (y1 y2 y3 y4 m1 m2 d1 d2 : ascii) : option Z :=
  match num4 y1 y2 y3 y4, num2 m1 m2, num2 d1 d2 with
  | Some y, Some m, Some d =>
      if (1 <=? m) && (m <=? 12) && (1 <=? d) && (d <=? DaysInMonth y m)
      then Some (days_from_civil y m d) else None
  | _, _, _ => None
  end.

Definition parse_hm (h1 h2 m1 m2 : ascii) : option Z :=
  match num2 h1 h2, num2 m1 m2 with
  | Some h, Some m =>
      if (h <=? 23) && (m <=? 59) then Some (MakeTime h m 0 0) else None
  | _, _ => None
  end.

Definition parse_sec (s1 s2 : ascii) : option Z :=
  match num2 s1 s2 with
  | Some s => if s <=? 59 then Some (s * 1000) else None
  | None => None
  end.

(** The time of day after the ["T"] of a date-time form. *)
Definition parse_time (s : string) : option Z :=
  match s with
  | String h1 (String h2 (String ":" (String m1 (String m2 rest)))) =>
      match parse_hm h1 h2 m1 m2, rest with
      | Some t, EmptyString => Some t
      | Some t, String ":" (String s1 (String s2 EmptyString)) =>
          match parse_sec s1 s2 with
          | Some u => Some (t + u)
          | None => None
          end
      | _, _ => None
      end
  | _ => None
  end.

(** [Date.parse]: a date-only form is a UTC time, a date-time form
    without offset is a local time. *)
Definition Date_parse (s : string) : option Z :=
  match s with
  | String y1 (String y2 (String y3 (String y4 (String "-"
      (String m1 (String m2 (String "-" (String d1 (String d2 rest))))))))) =>
      match parse_ymd y1 y2 y3 y4 m1 m2 d1 d2, rest with
      | Some day, EmptyString => Some (MakeDate day 0)
      | Some day, String "T" time =>
          match parse_time time with
          | Some t => Some (UTC (MakeDate day t))
          | None => None
          end
      | _, _ => None
      end
  | _ => None
  end.

(** A [Date] object is its time value; [None] is an Invalid Date. *)
Definition Date : Type := option Z.

(** [new Date(v)] *)
Definition Date_new (v : value) : Date :=
  match v with
  | VStr s => Date_parse s
  | VNum q => Some (Z.quot (Qnum q) (Zpos (Qden q)))
  | VUndefined => None
  end.

(** [end - start] on two dates: [None] is [NaN]. *)
Definition Date_sub (e s : Date) : option Z :=
  match e, s with
  | Some te, Some ts => Some (te - ts)
  | _, _ => None
  end.

(** *** Formatting *)

Definition year_string (y : Z) : string :=
  if (0 <=? y) && (y <=? 9999) then pad 4 y
  else String.append (if y <? 0 then "-" else "+") (pad 6 (Z.abs y)).

(** The calendar date of a day number, as [YYYY-MM-DD]. *)
Definition isoDate (z : Z) : string :=
  let '(y, m, d) := civil_from_days z in
  (year_string y ++ "-" ++ pad 2 m ++ "-" ++ pad 2 d)%string.

(** [toISOString()] of a valid date. *)
Definition toISOString (t : Z) : string :=
  (year_string (YearFromTime t) ++ "-" ++ pad 2 (MonthFromTime t + 1)
     ++ "-" ++ pad 2 (DateFromTime t)
     ++ "T" ++ pad 2 (HourFromTime t) ++ ":" ++ pad 2 (MinFromTime t)
     ++ ":" ++ pad 2 (SecFromTime t) ++ "." ++ pad 3 (msFromTime t) ++ "Z")%string.

(** *** Local calendar fields *)

(** [getDate()] *)
Definition getDate (t : Z) : Z := DateFromTime (LocalTime t).

(** [setDate(dt)]: the day of the month replaced in local time. *)
Definition setDate (t dt : Z) : Z :=
  let lt := LocalTime t in
  UTC (MakeDate (MakeDay (YearFromTime lt) (MonthFromTime lt) dt) (TimeWithinDay lt)).

End Zone.

End JSDate.

Export JSDate.

(** ** The in-memory document store *)

Module MockFirestore.

(** A document is a plain object: field names to values.  A collection
    is an object from document ids to documents, and the store holds the
    collections by name.  [Object.keys] enumerates a collection in the
    order of [map_to_list]. *)
Abbreviation Doc := (gmap string value).
Abbreviation CollectionData := (gmap string (gmap string value)).

(** [doc[field]] *)
Definition field (d : Doc) (f : string) : value := default VUndefined (d !! f).

(** [{ ...a, ...b }] *)
Definition spread (a b : Doc) : Doc := b ∪ a.

(** The state the application runs in: [this.collections] of the
    [MockFirestore] held in the global [db], and the messages shown
    with [alert], oldest first. *)
Record World : Type := mkWorld {
  collections : gmap string (gmap string (gmap string value));
  alerts : list string
}.

(** An asynchronous function, run to completion. *)
Definition M (A : Type) : Type := World -> result A * World.

Definition ret {A} (a : A) : M A := fun w => (Ok a, w).

Definition bind {A B} (m : M A) (k : A -> M B) : M B :=
  fun w =>
    match m w with
    | (Ok a, w') => k a w'
    | (Throw e, w') => (Throw e, w')
    end.

Definition throw {A} (e : string) : M A := fun w => (Throw e, w).

Definition alert (msg : string) : M unit :=
  fun w => (Ok tt, mkWorld (collections w) (alerts w ++ [msg])).

(** The document snapshot [get()] resolves to. *)
Record Snapshot : Type := mkSnapshot {
  snap_exists : bool;
  snap_data : option (gmap string value);
  snap_id : string
}.

(** The object [collectionData] a collection handle closes over; the
    handle is the name of the collection. *)
Definition collectionData (w : World) (name : string) : CollectionData :=
  default ∅ (collections w !! name).

Definition set_collectionData (name : string) (c : CollectionData) (w : World) : World :=
  mkWorld (<[name := c]> (collections w)) (alerts w).

(** [db.collection(name)]: the collection is created when it is missing. *)
Definition collection (name : string) : M string :=
  fun w =>
    match collections w !! name with
    | Some _ => (Ok name, w)
    | None => (Ok name, set_collectionData name ∅ w)
    end.

(** [doc(id).get()] *)
Definition doc_get (c id : string) : M Snapshot :=
  fun w =>
    let data := collectionData w c !! id in
    (Ok (mkSnapshot (bool_decide (is_Some data)) data id), w).

(** [doc(id).set(newData)] *)
Definition doc_set (c id : string) (newData : Doc) : M unit :=
  fun w => (Ok tt, set_collectionData c (<[id := newData]> (collectionData w c)) w).

(** [doc(id).update(updateData)] *)
Definition doc_update (c id : string) (updateData : Doc) : M unit :=
  fun w =>
    match collectionData w c !! id with
    | None => (Throw (String.append "Document " (String.append id " does not exist")), w)
    | Some old =>
        (Ok tt, set_collectionData c (<[id := spread old updateData]> (collectionData w c)) w)
    end.

(** [doc(id).delete()] *)
Definition doc_delete (c id : string) : M unit :=
  fun w => (Ok tt, set_collectionData c (delete id (collectionData w c)) w).

(** [collection.get()]: every document with its id. *)
Definition collection_get (c : string) : M (list (string * Doc)) :=
  fun w => (Ok (map_to_list (collectionData w c)), w).

(** [where(field, op, value).get()]: only ["=="] ever matches. *)
Definition where_get (c f op : string) (v : value) : M (list (string * Doc)) :=
  fun w =>
    (Ok (List.filter
           (fun d => if String.eqb op "==" then strict_eq (field (snd d) f) v else false)
           (map_to_list (collectionData w c))), w).

(** [for (const x of l) { await body(x) }] *)
Fixpoint for_of {A} (l : list A) (body : A -> M unit) : M unit :=
  match l with
  | [] => ret tt
  | x :: r => bind (body x) (fun _ => for_of r body)
  end.

End MockFirestore.

Export MockFirestore.

Notation "'let*' x ':=' m 'in' k" := (bind m (fun x => k))
  (at level 10, x name, m at level 100, k at level 200).
Notation "m ';;' k" := (bind m (fun _ => k))
  (at level 100, k at level 200, right associativity).

(** ** The application *)

Module App.

Section App.

(** [getTimezoneOffset()] of the device, in minutes. *)
Variable tz : Z.

(** [hashPassword]: the SHA-256 digest of the Web Crypto API, in hex. *)
Variable hashPassword : string -> string.

(** [getISODateString(date)]: the local calendar day of a date;
    [toISOString] throws on an Invalid Date. *)
Definition getISODateString (date : Date) : result string :=
  match date with
  | None => Throw "RangeError: Invalid time value"
  | Some t =>
      let tzOffset := tz * 60000 in
      let localDate := t - tzOffset in
      Ok (split_head "T" (toISOString localDate))
  end.

(** [now.toISOString().substring(0, 16)] *)
Definition isoMinutes (now : Z) : string := String.substring 0 16 (toISOString now).

(** *** Hours of a shift *)

(** [computeHours(startStr, endStr)] *)
Definition computeHours (startStr endStr : value) : Q :=
  let start := Date_new tz startStr in
  let end_ := Date_new tz endStr in
  let diffMs := Date_sub end_ start in
  match diffMs with
  | None => 0%Q
  | Some d =>
      if d <? 0 then 0%Q
      else
        let minutes := Math_round (inject_Z d / 60000) in
        let hours := (inject_Z minutes / 60)%Q in
        hours
  end.

(** *** Rows and totals of a pay period table *)

(** The effective times of a shift, as every table computes them. *)
Definition startTimeStr (shift : Doc) : value := JS.or (field shift "timeIn") (VStr "").
Definition endTimeStr (shift : Doc) : value := JS.or (field shift "timeOut") (VStr "").
Definition adjInStr (shift : Doc) : value := JS.or (field shift "adjTimeIn") (VStr "").
Definition adjOutStr (shift : Doc) : value := JS.or (field shift "adjTimeOut") (VStr "").
Definition actualStartStr (shift : Doc) : value := JS.or (adjInStr shift) (startTimeStr shift).
Definition actualEndStr (shift : Doc) : value := JS.or (adjOutStr shift) (endTimeStr shift).

(** What a table row shows of a shift. *)
Record Row : Type := mkRow {
  row_date : value;
  row_timeIn : value;
  row_adjIn : value;
  row_timeOut : value;
  row_adjOut : value;
  row_hours : Number.t;
  row_pay : Number.t
}.

(** The table being built: its rows, first row first, and the running
    [totalHours] and [totalPay]. *)
Record Table : Type := mkTable {
  tbody : list Row;
  totalHours : Number.t;
  totalPay : Number.t
}.

Definition emptyTable : Table := mkTable [] (Number.Finite 0) (Number.Finite 0).

(** [hours] and [pay] of one shift, and whether they enter the totals.
    The Number that [computeHours] returns is the binary64 value of the
    quotient [minutes / 60]. *)
Definition rowAmounts (hourlyRate : Number.t) (shift : Doc) : bool * Number.t * Number.t :=
  if truthy (actualStartStr shift) && truthy (actualEndStr shift) then
    let hours := Number.of_Q (computeHours (actualStartStr shift) (actualEndStr shift)) in
    let pay :=
      Number.div
        (Number.Math_round
           (Number.mul (Number.mul hours hourlyRate) (Number.Finite 100)))
        (Number.Finite 100) in
    (true, hours, pay)
  else (false, Number.Finite 0, Number.Finite 0).

(** The row [tr] of a shift. *)
Definition tableRow (hourlyRate : Number.t) (shift : Doc) : Row :=
  let '(_, hours, pay) := rowAmounts hourlyRate shift in
  mkRow (field shift "date") (startTimeStr shift) (adjInStr shift)
        (endTimeStr shift) (adjOutStr shift) hours pay.

(** One turn of the loop over the shifts of the period. *)
Definition rowStep (hourlyRate : Number.t) (t : Table) (shift : Doc) : Table :=
  let '(counted, hours, pay) := rowAmounts hourlyRate shift in
  let tr := tableRow hourlyRate shift in
  mkTable (tbody t ++ [tr])
          (if counted then Number.add (totalHours t) hours else totalHours t)
          (if counted then Number.add (totalPay t) pay else totalPay t).

(** The loop of [updateTable] and [exportCsv]. *)
Definition tableOf (hourlyRate : Number.t) (periodShifts : list Doc) : Table :=
  fold_left (rowStep hourlyRate) periodShifts emptyTable.

(** The sum of the pay column and of the hours column of a table, added
    up from 0 in the order of the rows. *)
Definition sumPay (rows : list Row) : Number.t :=
  fold_left (fun acc r => Number.add acc (row_pay r)) rows (Number.Finite 0).

Definition sumHours (rows : list Row) : Number.t :=
  fold_left (fun acc r => Number.add acc (row_hours r)) rows (Number.Finite 0).

(** The whole number of cents nearest to an amount: the digits that
    [toFixed(2)] shows of a non-negative amount. *)
Definition cents (amount : Number.t) : Z :=
  match amount with
  | Number.Finite x => Math_round (x * 100)
  | _ => 0
  end.

Definition sumCents (rows : list Row) : Z :=
  fold_right (fun r acc => cents (row_pay r) + acc) 0 rows.

(** The sum of a list of rationals. *)
Definition Qsum (l : list Q) : Q := fold_right Qplus 0%Q l.

(** The policy the tables are set against, a running aggregate that is
    not rounded to the cent until the end: what a shift pays before any
    rounding to the cent, [hours * hourlyRate] (0 when it does not enter
    the totals), added up in the order of the rows, and
    [Math.round(aggregate * 100) / 100] after the loop. *)
Definition unroundedRow (hourlyRate : Number.t) (shift : Doc) : Number.t :=
  let '(counted, hours, _) := rowAmounts hourlyRate shift in
  if counted then Number.mul hours hourlyRate else Number.Finite 0.

Definition unroundedAggregate (hourlyRate : Number.t) (shifts : list Doc) : Number.t :=
  fold_left (fun aggregate s => Number.add aggregate (unroundedRow hourlyRate s))
            shifts (Number.Finite 0).

Definition roundedAggregate (hourlyRate : Number.t) (shifts : list Doc) : Number.t :=
  Number.div
    (Number.Math_round (Number.mul (unroundedAggregate hourlyRate shifts) (Number.Finite 100)))
    (Number.Finite 100).

(** The same aggregate in exact arithmetic, in cents: the hours of the
    shifts that enter the totals, times the rate, times 100. *)
Definition exactCents (rate : Q) (shift : Doc) : Q :=
  if truthy (actualStartStr shift) && truthy (actualEndStr shift)
  then (computeHours (actualStartStr shift) (actualEndStr shift) * rate * 100)%Q
  else 0%Q.

Definition exactAggregate (rate : Q) (shifts : list Doc) : Q :=
  fold_right (fun s acc => (exactCents rate s + acc)%Q) 0%Q shifts.

(** *** Pay periods *)

Definition Date_getDate (d : Date) : option Z :=
  match d with Some t => Some (getDate tz t) | None => None end.

Definition Date_setDate (d : Date) (dt : option Z) : Date :=
  match d, dt with
  | Some t, Some n => Some (setDate tz t n)
  | _, _ => None
  end.

Definition num_add (a b : option Z) : option Z :=
  match a, b with
  | Some x, Some y => Some (x + y)
  | _, _ => None
  end.

Definition num_mul (a b : option Z) : option Z :=
  match a, b with
  | Some x, Some y => Some (x * y)
  | _, _ => None
  end.

(** [Math.floor(a / b)] for a positive integer [b]. *)
Definition floor_div (a : option Z) (b : Z) : option Z :=
  match a with
  | Some x => Some (Math_floor (inject_Z x / inject_Z b))
  | None => None
  end.

Record Period : Type := mkPeriod {
  periodStartISO : string;
  periodEndISO : string
}.

(** The bounds of the period of index [index]: the first lines of
    [updateTable], [exportCsv] and, after the index is found, of
    [renderEmployeeDashboard]. *)
Definition periodOf (payPeriodStartDate : string) (index : option Z) : result Period :=
  let baseStart := Date_new tz (VStr payPeriodStartDate) in
  let periodStart := Date_setDate baseStart (num_add (Date_getDate baseStart)
                                                     (num_mul index (Some 14))) in
  let periodEnd := Date_setDate periodStart (num_add (Date_getDate periodStart) (Some 13)) in
  match getISODateString periodStart, getISODateString periodEnd with
  | Ok s, Ok e => Ok (mkPeriod s e)
  | Throw m, _ => Throw m
  | _, Throw m => Throw m
  end.

(** [currentIndex] of [renderEmployeeDashboard]. *)
Definition currentIndex (payPeriodStartDate today : string) : option Z :=
  let baseStart := Date_new tz (VStr payPeriodStartDate) in
  let todayDate := Date_new tz (VStr today) in
  let diffDays := floor_div (Date_sub todayDate baseStart) (1000 * 60 * 60 * 24) in
  floor_div diffDays 14.

(** The current period of [renderEmployeeDashboard]. *)
Definition currentPeriod (payPeriodStartDate today : string) : result Period :=
  periodOf payPeriodStartDate (currentIndex payPeriodStartDate today).

(** [s.date >= periodStartISO && s.date <= periodEndISO] *)
Definition inPeriod (p : Period) (s : Doc) : bool :=
  JS.ge (field s "date") (VStr (periodStartISO p))
  && JS.le (field s "date") (VStr (periodEndISO p)).

(** The table of [updateTable] for the period of index
    [currentPeriodIndex], with the state of the two navigation buttons. *)
Record PeriodTable : Type := mkPeriodTable {
  pt_period : Period;
  pt_table : Table;
  hasNext : bool;
  hasPrev : bool
}.

Definition updateTable (payPeriodStartDate : string) (currentPeriodIndex : Z)
    (hourlyRate : Number.t) (shifts : list Doc) : result PeriodTable :=
  match periodOf payPeriodStartDate (Some currentPeriodIndex) with
  | Throw m => Throw m
  | Ok p =>
      let periodShifts := List.filter (inPeriod p) shifts in
      Ok (mkPeriodTable p (tableOf hourlyRate periodShifts)
            (existsb (fun s => JS.gt (field s "date") (VStr (periodEndISO p))) shifts)
            (existsb (fun s => JS.lt (field s "date") (VStr (periodStartISO p))) shifts))
  end.

(** The table of [renderEmployeeDashboard]: the shifts outside the
    current period are skipped. *)
Definition dashboardTable (payPeriodStartDate today : string)
    (hourlyRate : Number.t) (shifts : list Doc) : result (Period * Table) :=
  match currentPeriod payPeriodStartDate today with
  | Throw m => Throw m
  | Ok p =>
      Ok (p, fold_left
               (fun t shift =>
                  if JS.lt (field shift "date") (VStr (periodStartISO p))
                     || JS.gt (field shift "date") (VStr (periodEndISO p))
                  then t else rowStep hourlyRate t shift)
               shifts emptyTable)
  end.

(** *** Functions on the database *)

Definition lift {A} (r : result A) : M A := fun w => (r, w).

(** [doc.data()] of a snapshot, for a field access: reading a field
    of [undefined] throws. *)
Definition data_of (doc : Snapshot) : M Doc :=
  match snap_data doc with
  | Some data => ret data
  | None => throw "TypeError: cannot read properties of undefined"
  end.

(** [`${username}_${date}`] *)
Definition shiftId (username date : string) : string :=
  String.append username (String.append "_" date).

(** [punchIn(username)]; [clock0] and [clock1] are the two readings of
    the clock, by [getISODateString()] and by [new Date()]. *)
Definition punchIn (username : string) (clock0 clock1 : Z) : M unit :=
  let* date := lift (getISODateString (Some clock0)) in
  let docId := shiftId username date in
  let* docRef := collection "shifts" in
  let* doc := doc_get docRef docId in
  let* punched :=
    (if snap_exists doc
     then (let* data := data_of doc in ret (truthy (field data "timeIn")))
     else ret false) in
  if punched then alert "You have already punched in today."
  else
    let iso := isoMinutes clock1 in
    doc_set docRef docId
      (<["username" := VStr username]>
         (<["date" := VStr date]>
            (<["timeIn" := VStr iso]>
               (<["timeOut" := VStr ""]>
                  (<["adjTimeIn" := VStr ""]>
                     (<["adjTimeOut" := VStr ""]> ∅)))))).

(** [punchOut(username)], with the same two readings of the clock. *)
Definition punchOut (username : string) (clock0 clock1 : Z) : M unit :=
  let* date := lift (getISODateString (Some clock0)) in
  let docId := shiftId username date in
  let* docRef := collection "shifts" in
  let* doc := doc_get docRef docId in
  let* notIn :=
    (if negb (snap_exists doc) then ret true
     else (let* data := data_of doc in ret (negb (truthy (field data "timeIn"))))) in
  if notIn then alert "You have not punched in yet today."
  else
    let* data := data_of doc in
    if truthy (field data "timeOut") then alert "You have already punched out today."
    else
      let iso := isoMinutes clock1 in
      doc_update docRef docId (<["timeOut" := VStr iso]> ∅).

(** [addEmployee(username, password, hourlyRate)] *)
Definition addEmployee (username password : string) (hourlyRate : Q) : M unit :=
  let hash := hashPassword password in
  let* users := collection "users" in
  doc_set users username
    (<["username" := VStr username]>
       (<["role" := VStr "employee"]>
          (<["hourlyRate" := VNum hourlyRate]>
             (<["passwordHash" := VStr hash]> ∅)))).

(** The submit handler of the "Add New Employee" form of
    [renderAdminDashboard], up to the refresh of the employee list;
    [newRate] is the parsed rate. The result is the text of the
    message under the form. *)
Definition addForm_submit (newUsername newPassword : string) (newRate : Q) : M string :=
  let uname := trim newUsername in
  let pwd := newPassword in
  let rate := newRate in
  if negb (truthy (VStr uname)) || negb (truthy (VStr pwd))
  then ret "Please enter a username and password."
  else
    let* users := collection "users" in
    let* exists_ := doc_get users uname in
    if snap_exists exists_ then ret "Username already exists."
    else
      addEmployee uname pwd rate ;;
      ret (String.append "Employee " (String.append uname " added.")).

(** [deleteEmployee(username)] *)
Definition deleteEmployee (username : string) : M unit :=
  let* users := collection "users" in
  doc_delete users username ;;
  let* shiftsRef := collection "shifts" in
  let* shifts := where_get shiftsRef "username" "==" (VStr username) in
  for_of shifts (fun doc =>
    let* c := collection "shifts" in
    doc_delete c (fst doc)).

(** The comparator of [getShiftsForUser]. *)
Definition byDate (a b : Doc) : Z :=
  if JS.lt (field a "date") (field b "date") then -1
  else if JS.gt (field a "date") (field b "date") then 1
  else 0.

(** [Array.prototype.sort]: a stable sort by the comparator. *)
Fixpoint sort_insert {A} (cmp : A -> A -> Z) (x : A) (l : list A) : list A :=
  match l with
  | [] => [x]
  | y :: r => if cmp y x <? 0 then y :: sort_insert cmp x r else x :: l
  end.

Definition sort {A} (cmp : A -> A -> Z) (l : list A) : list A :=
  foldr (sort_insert cmp) [] l.

(** [getShiftsForUser(username)] *)
Definition getShiftsForUser (username : string) : M (list Doc) :=
  let* shiftsRef := collection "shifts" in
  let* result := where_get shiftsRef "username" "==" (VStr username) in
  let shifts :=
    List.map (fun doc => spread (snd doc) (<["docId" := VStr (fst doc)]> ∅)) result in
  ret (sort byDate shifts).

(** The click handler of "Save Adjustments" for one row of the table. *)
Definition saveAdjustment (docId adjInVal adjOutVal : string) : M unit :=
  let* shifts := collection "shifts" in
  doc_update shifts docId
    (<["adjTimeIn" := JS.or (VStr adjInVal) (VStr "")]>
       (<["adjTimeOut" := JS.or (VStr adjOutVal) (VStr "")]> ∅)).

(** [getAllEmployees()] *)
Definition getAllEmployees : M (list Doc) :=
  let* users := collection "users" in
  let* result := where_get users "role" "==" (VStr "employee") in
  ret (List.map snd result).

(** [try { body } catch (err) { handler }] *)
Definition try_catch {A} (body : M A) (handler : string -> M A) : M A :=
  fun w =>
    match body w with
    | (Ok a, w') => (Ok a, w')
    | (Throw e, w') => handler e w'
    end.

(** What a submitted login form ends in: a message under the form, or a
    saved session, [{ username, role }], and the way to the dashboard. *)
Inductive LoginOutcome : Type :=
| LoginMessage (msg : string)
| LoggedIn (username role : value).

(** The submit handler of the login form of [initLoginPage]. *)
Definition loginForm_submit (usernameInput passwordInput : string) : M LoginOutcome :=
  let username := trim usernameInput in
  let password := passwordInput in
  try_catch
    (let hashed := hashPassword password in
     let* users := collection "users" in
     let* userDoc := doc_get users username in
     if negb (snap_exists userDoc) then ret (LoginMessage "Invalid username or password.")
     else
       let* userData := data_of userDoc in
       if negb (strict_eq (field userData "passwordHash") (VStr hashed))
       then ret (LoginMessage "Invalid username or password.")
       else ret (LoggedIn (field userData "username") (field userData "role")))
    (fun _ => ret (LoginMessage "Error logging in. See console for details.")).

(** The click handler of "Update Rate" in [renderEmployeeDetails], up
    to the refresh of the table; [newRate] is the parsed input, [None]
    for [NaN]. *)
Definition rateButton_click (username : string) (newRate : option Q) : M unit :=
  match newRate with
  | None => alert "Please enter a valid hourly rate."
  | Some rate =>
      if Qlt_le_dec rate 0 then alert "Please enter a valid hourly rate."
      else
        let* users := collection "users" in
        doc_update users username (<["hourlyRate" := VNum rate]> ∅) ;;
        alert "Hourly rate updated."
  end.

(** The two punch buttons of [renderEmployeeDashboard]:
    [punchInBtn.disabled] and [punchOutBtn.disabled]. *)
Record PunchButtons : Type := mkPunchButtons {
  punchInDisabled : bool;
  punchOutDisabled : bool
}.

Definition punchButtons (username : string) (clock : Z) : M PunchButtons :=
  let* today := lift (getISODateString (Some clock)) in
  let docId := shiftId username today in
  let* shifts := collection "shifts" in
  let* shiftDoc := doc_get shifts docId in
  let hasShift := snap_exists shiftDoc in
  let shiftData := if hasShift then snap_data shiftDoc else None in
  if negb hasShift then ret (mkPunchButtons false true)
  else
    match shiftData with
    | Some data =>
        if truthy (field data "timeIn") && negb (truthy (field data "timeOut"))
        then ret (mkPunchButtons true false)
        else ret (mkPunchButtons true true)
    | None => ret (mkPunchButtons true true)
    end.

(** [getHours()] and [getMinutes()] *)
Definition getHours (t : Z) : Z := HourFromTime (LocalTime tz t).
Definition getMinutes (t : Z) : Z := MinFromTime (LocalTime tz t).

(** [formatTimeInput(isoStr)]; an hour or a minute, below 100, padded to
    two digits is its last two digits. *)
Definition formatTimeInput (isoStr : value) : string :=
  if negb (truthy isoStr) then ""
  else
    match Date_new tz isoStr with
    | None => ""
    | Some date =>
        let hours := pad 2 (getHours date) in
        let minutes := pad 2 (getMinutes date) in
        String.append hours (String.append ":" minutes)
    end.

End App.

End App.

Export App.

(** * Properties *)

(** ** The calendar *)

Section CalendarFacts.

Lemma era_bounds (doe : Z) :
  0 <= doe < 146097 ->
  let yoe := (doe - doe / 1460 + doe / 36524 - doe / 146096) / 365 in
  let doy := doe - (365 * yoe + yoe / 4 - yoe / 100) in
  0 <= yoe <= 399 /\ 0 <= doy <= 365.
Proof.
  intros H yoe doy. subst doy yoe.
  Z.div_mod_to_equations. lia.
Qed.

(** The day number of the calendar date of a day number is that day
    number. *)
Lemma days_from_civil_from_days (z : Z) :
  let '(y, m, d) := civil_from_days z in days_from_civil y m d = z.
Proof.
  unfold civil_from_days, days_from_civil.
  set (z' := z + 719468).
  set (era := z' / 146097).
  set (doe := z' mod 146097).
  assert (Hdoe : 0 <= doe < 146097) by (apply Z.mod_pos_bound; lia).
  assert (Hz : z' = 146097 * era + doe) by (apply Z.div_mod; lia).
  destruct (era_bounds doe Hdoe) as [Hyoe Hdoy].
  set (yoe := (doe - doe / 1460 + doe / 36524 - doe / 146096) / 365) in *.
  set (doy := doe - (365 * yoe + yoe / 4 - yoe / 100)) in *.
  set (mp := (5 * doy + 2) / 153).
  assert (Hmp : 0 <= mp <= 11).
  { subst mp. split.
    - apply Z.div_pos; lia.
    - apply Z.lt_succ_r. apply Z.div_lt_upper_bound; lia. }
  assert (Hy : forall y, y = yoe + era * 400 -> y / 400 = era /\ y mod 400 = yoe).
  { intros y ->. split.
    - rewrite Z.div_add by lia. rewrite Z.div_small by lia. lia.
    - rewrite Z.mod_add by lia. apply Z.mod_small. lia. }
  destruct (mp <? 10) eqn:E10.
  - apply Z.ltb_lt in E10.
    replace (mp + 3 <=? 2) with false by (symmetry; apply Z.leb_gt; lia).
    replace (2 <? mp + 3) with true by (symmetry; apply Z.ltb_lt; lia).
    destruct (Hy (yoe + era * 400) eq_refl) as [-> ->].
    replace (mp + 3 - 3) with mp by lia. subst doy. lia.
  - apply Z.ltb_ge in E10.
    replace (mp - 9 <=? 2) with true by (symmetry; apply Z.leb_le; lia).
    replace (2 <? mp - 9) with false by (symmetry; apply Z.ltb_ge; lia).
    replace (yoe + era * 400 + 1 - 1) with (yoe + era * 400) by lia.
    destruct (Hy (yoe + era * 400) eq_refl) as [-> ->].
    replace (mp - 9 + 9) with mp by lia. subst doy. lia.
Qed.

Lemma civil_month_bounds (z : Z) : 1 <= snd (fst (civil_from_days z)) <= 12.
Proof.
  unfold civil_from_days.
  set (doe := (z + 719468) mod 146097).
  assert (Hdoe : 0 <= doe < 146097) by (apply Z.mod_pos_bound; lia).
  destruct (era_bounds doe Hdoe) as [_ Hdoy].
  set (yoe := (doe - doe / 1460 + doe / 36524 - doe / 146096) / 365) in *.
  set (doy := doe - (365 * yoe + yoe / 4 - yoe / 100)) in *.
  set (mp := (5 * doy + 2) / 153).
  assert (Hmp : 0 <= mp <= 11).
  { subst mp. split.
    - apply Z.div_pos; lia.
    - apply Z.lt_succ_r. apply Z.div_lt_upper_bound; lia. }
  cbn [fst snd]. destruct (mp <? 10) eqn:E; [apply Z.ltb_lt in E | apply Z.ltb_ge in E]; lia.
Qed.

Lemma days_from_civil_day (y m d : Z) :
  days_from_civil y m 1 + d - 1 = days_from_civil y m d.
Proof. unfold days_from_civil. lia. Qed.

(** [MakeDay] on the year and month of a time: the days move with the
    day of the month. *)
Lemma MakeDay_of_time (t dt : Z) :
  MakeDay (YearFromTime t) (MonthFromTime t) dt = Day t + dt - DateFromTime t.
Proof.
  unfold MakeDay, YearFromTime, MonthFromTime, DateFromTime.
  pose proof (days_from_civil_from_days (Day t)) as R.
  pose proof (civil_month_bounds (Day t)) as B.
  destruct (civil_from_days (Day t)) as [[y m] d]. cbn [fst snd] in *.
  rewrite Z.div_small by lia. rewrite Z.mod_small by lia.
  replace (y + 0) with y by lia. replace (m - 1 + 1) with m by lia.
  rewrite <- R, <- (days_from_civil_day y m d). lia.
Qed.

(** [d.setDate(d.getDate() + n)] moves a date by [n] days. *)
Lemma setDate_getDate (tz t n : Z) :
  setDate tz t (getDate tz t + n) = t + n * msPerDay.
Proof.
  unfold setDate, getDate. rewrite MakeDay_of_time.
  unfold UTC, MakeDate, LocalTime, Day, TimeWithinDay.
  set (lt := t - tz * msPerMinute).
  pose proof (Z.div_mod lt msPerDay) as D. unfold msPerDay in *. lia.
Qed.

End CalendarFacts.

(** ** ISO strings *)

Section FormatFacts.

Lemma passes_nil c : passes c "".
Proof. intros r. reflexivity. Qed.

Lemma passes_cons c a s : Ascii.eqb a c = false -> passes c s -> passes c (String a s).
Proof.
  intros Ha Hs r.
  change (split_head c (String a s ++ r))
    with (if Ascii.eqb a c then EmptyString else String a (split_head c (s ++ r))).
  rewrite Ha, Hs. reflexivity.
Qed.

Lemma string_app_assoc (a b c : string) : ((a ++ b) ++ c = a ++ (b ++ c))%string.
Proof.
  induction a as [|x a IH]; [reflexivity |].
  change (String x (String.append (String.append a b) c)
          = String x (String.append a (String.append b c))).
  rewrite IH. reflexivity.
Qed.

Lemma string_app_nil_r (a : string) : (a ++ "")%string = a.
Proof.
  induction a as [|x a IH]; [reflexivity |].
  change (String x (String.append a "") = String x a). rewrite IH. reflexivity.
Qed.

Lemma passes_app c a b : passes c a -> passes c b -> passes c (a ++ b)%string.
Proof.
  unfold passes. intros Ha Hb r.
  rewrite (string_app_assoc a b r), Ha, Hb, (string_app_assoc a b). reflexivity.
Qed.

Lemma digit_char_not_T (z : Z) : Ascii.eqb (digit_char (z mod 10)) "T" = false.
Proof.
  assert (H : 0 <= z mod 10 < 10) by (apply Z.mod_pos_bound; lia).
  assert (C : z mod 10 = 0 \/ z mod 10 = 1 \/ z mod 10 = 2 \/ z mod 10 = 3 \/ z mod 10 = 4
              \/ z mod 10 = 5 \/ z mod 10 = 6 \/ z mod 10 = 7 \/ z mod 10 = 8 \/ z mod 10 = 9)
    by lia.
  repeat (destruct C as [-> | C]; [reflexivity |]). rewrite C. reflexivity.
Qed.

Lemma digits_passes (n : nat) : forall z acc, passes "T" acc -> passes "T" (digits n z acc).
Proof.
  induction n as [|n IH]; intros z acc Hacc; cbn; [exact Hacc |].
  apply IH. apply passes_cons; [apply digit_char_not_T | exact Hacc].
Qed.

Lemma pad_passes n z : passes "T" (pad n z).
Proof. apply digits_passes, passes_nil. Qed.

Lemma year_string_passes y : passes "T" (year_string y).
Proof.
  unfold year_string. destruct ((0 <=? y) && (y <=? 9999)); [apply pad_passes |].
  apply passes_app; [| apply pad_passes].
  destruct (y <? 0); apply passes_cons; try reflexivity; apply passes_nil.
Qed.

(** The date part of [toISOString] is the calendar date of the day. *)
Lemma split_head_sep (c : ascii) (r : string) : split_head c (String c r) = "".
Proof. cbn [split_head]. rewrite Ascii.eqb_refl. reflexivity. Qed.

Lemma dash_passes : passes "T" "-".
Proof. apply passes_cons; [reflexivity | apply passes_nil]. Qed.

(** The date part of [toISOString] is the calendar date of the day. *)
Lemma split_head_toISOString (t : Z) : split_head "T" (toISOString t) = isoDate (Day t).
Proof.
  unfold toISOString, isoDate, YearFromTime, MonthFromTime, DateFromTime.
  destruct (civil_from_days (Day t)) as [[y m] d]. cbn [fst snd].
  replace (m - 1 + 1) with m by lia.
  rewrite year_string_passes, dash_passes, pad_passes, dash_passes, pad_passes.
  change ("T" ++ ?x)%string with (String "T" x).
  rewrite split_head_sep, string_app_nil_r. reflexivity.
Qed.

Lemma getISODateString_day (tz t : Z) :
  getISODateString tz (Some t) = Ok (isoDate (Day (t - tz * 60000))).
Proof. unfold getISODateString. rewrite split_head_toISOString. reflexivity. Qed.

End FormatFacts.

(** ** Pay periods *)

Section PeriodFacts.

Variable tz : Z.

Lemma floor_div_Some (x b : Z) : floor_div (Some x) b = Some (x / b).
Proof. unfold floor_div, Math_floor. rewrite <- Zdiv_Qdiv. reflexivity. Qed.

(** [d.setDate(d.getDate() + n)] on a valid date. *)
Lemma Date_setDate_getDate (t : Z) (n : option Z) :
  Date_setDate tz (Some t) (num_add (Date_getDate tz (Some t)) n)
  = match n with Some k => Some (t + k * msPerDay) | None => None end.
Proof.
  destruct n as [k|]; cbn [Date_setDate Date_getDate num_add]; [| reflexivity].
  rewrite setDate_getDate. reflexivity.
Qed.

(** The bounds of period [k] when the anchor string denotes day [a]: both
    are moved by the whole days, rounded down, that local time is ahead
    of UTC. *)
Lemma periodOf_days (payPeriodStartDate : string) (a k : Z) :
  Date_parse tz payPeriodStartDate = Some (a * msPerDay) ->
  periodOf tz payPeriodStartDate (Some k)
  = Ok (mkPeriod (isoDate (a + 14 * k + (- tz * 60000) / msPerDay))
                 (isoDate (a + 14 * k + 13 + (- tz * 60000) / msPerDay))).
Proof.
  intros Ha. unfold periodOf. cbn [Date_new]. rewrite Ha.
  rewrite Date_setDate_getDate. cbn [num_mul].
  rewrite Date_setDate_getDate. rewrite !getISODateString_day.
  unfold Day. do 3 f_equal.
  - replace (a * msPerDay + k * 14 * msPerDay - tz * 60000)
      with ((a + 14 * k) * msPerDay + - tz * 60000) by lia.
    rewrite Z.div_add_l by (unfold msPerDay; lia). reflexivity.
  - replace (a * msPerDay + k * 14 * msPerDay + 13 * msPerDay - tz * 60000)
      with ((a + 14 * k + 13) * msPerDay + - tz * 60000) by lia.
    rewrite Z.div_add_l by (unfold msPerDay; lia). reflexivity.
Qed.

Lemma currentIndex_days (payPeriodStartDate today : string) (a d : Z) :
  Date_parse tz payPeriodStartDate = Some (a * msPerDay) ->
  Date_parse tz today = Some (d * msPerDay) ->
  currentIndex tz payPeriodStartDate today = Some ((d - a) / 14).
Proof.
  intros Ha Hd. unfold currentIndex. cbn [Date_new]. rewrite Ha, Hd.
  cbn [Date_sub]. rewrite !floor_div_Some. do 2 f_equal.
  replace (d * msPerDay - a * msPerDay) with ((d - a) * (1000 * 60 * 60 * 24))
    by (unfold msPerDay; lia).
  apply Z.div_mul. lia.
Qed.

(** Where the device is on or east of Greenwich, the current period
    starts on a day [anchor + 14 * index] and holds today. *)
Lemma currentPeriod_east (payPeriodStartDate today : string) (a d : Z) :
  -1440 < tz <= 0 ->
  Date_parse tz payPeriodStartDate = Some (a * msPerDay) ->
  Date_parse tz today = Some (d * msPerDay) ->
  exists k lo hi,
    currentIndex tz payPeriodStartDate today = Some k /\
    currentPeriod tz payPeriodStartDate today = Ok (mkPeriod (isoDate lo) (isoDate hi)) /\
    lo = a + 14 * k /\ hi = a + 14 * k + 13 /\ lo <= d <= hi.
Proof.
  intros Htz Ha Hd. exists ((d - a) / 14), (a + 14 * ((d - a) / 14)), (a + 14 * ((d - a) / 14) + 13).
  unfold currentPeriod. rewrite (currentIndex_days _ _ a d Ha Hd).
  rewrite (periodOf_days _ a _ Ha).
  assert (Hz : (- tz * 60000) / msPerDay = 0)
    by (apply Z.div_small; unfold msPerDay; lia).
  rewrite Hz, !Z.add_0_r.
  repeat split; try reflexivity.
  - pose proof (Z.mul_div_le (d - a) 14). lia.
  - pose proof (Z.mul_succ_div_gt (d - a) 14). lia.
Qed.

(** Where the device is west of Greenwich, both bounds fall one day
    early: a day that is the last of its period by the index is left
    out of the bounds. *)
Lemma currentPeriod_west (payPeriodStartDate today : string) (a d : Z) :
  0 < tz <= 1440 ->
  Date_parse tz payPeriodStartDate = Some (a * msPerDay) ->
  Date_parse tz today = Some (d * msPerDay) ->
  exists k lo hi,
    currentIndex tz payPeriodStartDate today = Some k /\
    currentPeriod tz payPeriodStartDate today = Ok (mkPeriod (isoDate lo) (isoDate hi)) /\
    lo = a + 14 * k - 1 /\ hi = a + 14 * k + 12 /\
    ((d - a) mod 14 = 13 -> hi < d).
Proof.
  intros Htz Ha Hd.
  exists ((d - a) / 14), (a + 14 * ((d - a) / 14) - 1), (a + 14 * ((d - a) / 14) + 12).
  unfold currentPeriod. rewrite (currentIndex_days _ _ a d Ha Hd).
  rewrite (periodOf_days _ a _ Ha).
  assert (Hz : (- tz * 60000) / msPerDay = -1).
  { symmetry. apply (Z.div_unique _ _ _ (msPerDay - tz * 60000)); unfold msPerDay; lia. }
  rewrite Hz.
  repeat split; try reflexivity.
  - do 3 f_equal; lia.
  - intros Hm. pose proof (Z.div_mod (d - a) 14). lia.
Qed.

End PeriodFacts.

(** On Greenwich time and two hours east of it, the period of the
    specification's example. *)
Example currentPeriod_east_example :
  exists k lo hi,
    currentIndex (-120) "2025-01-01" "2025-01-20" = Some k /\
    currentPeriod (-120) "2025-01-01" "2025-01-20" = Ok (mkPeriod (isoDate lo) (isoDate hi)) /\
    lo = 20089 + 14 * k /\ hi = 20089 + 14 * k + 13 /\ lo <= 20108 <= hi.
Proof. apply currentPeriod_east; [lia | reflexivity | reflexivity]. Qed.

(** C2, where the code departs from it.  On a device five hours west of
    Greenwich, with the anchor 2025-01-01: on 2025-01-28 the index is 1 and
    the bounds are 2025-01-14 to 2025-01-27, which leave the day out; on
    2025-01-20, the day of the specification's example, the bounds are the
    same, one day before the 2025-01-15 to 2025-01-28 the device shows on
    Greenwich time.  The anchor is parsed as UTC midnight, the evening
    before in local time, and the days are then counted in local time. *)
Theorem C2_period_west_of_Greenwich :
  currentIndex 300 "2025-01-01" "2025-01-28" = Some 1
  /\ currentPeriod 300 "2025-01-01" "2025-01-28"
     = Ok (mkPeriod "2025-01-14" "2025-01-27")
  /\ inPeriod (mkPeriod "2025-01-14" "2025-01-27") (<["date" := VStr "2025-01-28"]> ∅) = false
  /\ currentPeriod 300 "2025-01-01" "2025-01-20"
     = Ok (mkPeriod "2025-01-14" "2025-01-27")
  /\ currentPeriod 0 "2025-01-01" "2025-01-20"
     = Ok (mkPeriod "2025-01-15" "2025-01-28").
Proof. split; [| split; [| split; [| split]]]; vm_compute; reflexivity. Qed.

(** ** Hours *)

Section HoursFacts.

Variable tz : Z.

(** Rounding a number of milliseconds to minutes. *)
Lemma Math_round_minutes (d : Z) :
  Math_round (inject_Z d / 60000) = (d + 30000) / 60000.
Proof.
  unfold Math_round.
  rewrite (Zdiv_Qdiv (d + 30000) 60000).
  apply Qfloor_comp.
  rewrite inject_Z_plus.
  change (inject_Z 60000) with 60000%Q. change (inject_Z 30000) with 30000%Q.
  field.
Qed.

Lemma computeHours_valid (startStr endStr : value) (ts te : Z) :
  Date_new tz startStr = Some ts ->
  Date_new tz endStr = Some te ->
  ts <= te ->
  computeHours tz startStr endStr = (inject_Z ((te - ts + 30000) / 60000) / 60)%Q.
Proof.
  intros Hs He Hle. unfold computeHours. rewrite Hs, He. cbn [Date_sub].
  replace (te - ts <? 0) with false by (symmetry; apply Z.ltb_ge; lia).
  rewrite Math_round_minutes. reflexivity.
Qed.

Lemma minutes_over_60_nonneg (m : Z) : 0 <= m -> (0 <= inject_Z m / 60)%Q.
Proof. intros H. unfold Qle, Qdiv, Qmult, Qinv, inject_Z. cbn. lia. Qed.

Lemma computeHours_nonneg (startStr endStr : value) :
  (0 <= computeHours tz startStr endStr)%Q.
Proof.
  unfold computeHours.
  destruct (Date_sub _ _) as [d|]; [| apply Qle_refl].
  destruct (d <? 0) eqn:E; [apply Qle_refl |]. apply Z.ltb_ge in E.
  apply minutes_over_60_nonneg. rewrite Math_round_minutes.
  apply Z.div_pos; lia.
Qed.

(** A timestamp to the minute, [YYYY-MM-DDTHH:mm], is a whole number
    of minutes. *)
Lemma Date_parse_minutes (s : string) (t : Z) :
  String.length s = 16%nat ->
  Date_parse tz s = Some t ->
  exists n, t = n * 60000.
Proof.
  intros Hlen H.
  do 16 (destruct s as [|? s]; [discriminate Hlen |]).
  destruct s; [| discriminate Hlen].
  unfold Date_parse in H.
  repeat match type of H with
         | match ?x with _ => _ end = _ => destruct x eqn:?; try discriminate H
         end.
  unfold parse_time in *.
  repeat match goal with
         | E : match ?x with _ => _ end = _ |- _ => destruct x eqn:?; try discriminate E
         end.
  unfold parse_hm in *.
  repeat match goal with
         | E : match ?x with _ => _ end = _ |- _ => destruct x eqn:?; try discriminate E
         | E : (if ?x then _ else _) = _ |- _ => destruct x eqn:?; try discriminate E
         end.
  repeat match goal with E : Some _ = Some _ |- _ => injection E as E end.
  subst. unfold UTC, MakeDate, MakeTime, msPerDay, msPerHour, msPerMinute.
  match goal with
  | |- exists n, ?d * _ + (?h * _ + ?m * _ + _ + _) + _ = _ =>
      exists (d * 1440 + h * 60 + m + tz)
  end.
  lia.
Qed.

End HoursFacts.

(** ** Hours between two timestamps *)

(** C1. [computeHours] on two timestamps that parse, the end not before the
    start, is a whole number of minutes over 60: the whole number nearest to
    the elapsed minutes (a tie goes up), which is the elapsed minutes
    themselves when they are whole, as they are for two timestamps written
    to the minute ([YYYY-MM-DDTHH:mm]); the rounding is done on the minutes,
    before the division.  When the end precedes the start,
    or one of the two is missing or does not parse, the result is 0.  The
    result is never negative.  [computeHours] is a total function: no
    input makes it throw. *)
Theorem C1_computeHours (tz : Z) (startStr endStr : value) :
  (forall ts te,
      Date_new tz startStr = Some ts -> Date_new tz endStr = Some te -> ts <= te ->
      exists minutes : Z,
        computeHours tz startStr endStr = (inject_Z minutes / 60)%Q /\
        -30000 < minutes * 60000 - (te - ts) <= 30000 /\
        (forall n, te - ts = n * 60000 -> minutes = n))
  /\ (forall s e ts te,
        startStr = VStr s -> endStr = VStr e ->
        String.length s = 16%nat -> String.length e = 16%nat ->
        Date_parse tz s = Some ts -> Date_parse tz e = Some te -> ts <= te ->
        exists n, te - ts = n * 60000 /\
                  computeHours tz startStr endStr = (inject_Z n / 60)%Q)
  /\ (forall ts te,
        Date_new tz startStr = Some ts -> Date_new tz endStr = Some te -> te < ts ->
        computeHours tz startStr endStr = 0%Q)
  /\ (Date_new tz startStr = None \/ Date_new tz endStr = None ->
      computeHours tz startStr endStr = 0%Q)
  /\ (startStr = VUndefined \/ startStr = VStr "" \/ endStr = VUndefined \/ endStr = VStr "" ->
      computeHours tz startStr endStr = 0%Q)
  /\ (0 <= computeHours tz startStr endStr)%Q.
Proof.
  assert (Hinv : Date_new tz startStr = None \/ Date_new tz endStr = None ->
                 computeHours tz startStr endStr = 0%Q).
  { unfold computeHours.
    intros [H | H]; rewrite H; [destruct (Date_new tz endStr) |]; reflexivity. }
  repeat split.
  - intros ts te Hs He Hle. exists ((te - ts + 30000) / 60000).
    split; [apply (computeHours_valid tz _ _ ts te Hs He Hle) |].
    pose proof (Z.div_mod (te - ts + 30000) 60000) as D.
    pose proof (Z.mod_pos_bound (te - ts + 30000) 60000) as B.
    split; [lia |]. intros n Hn. rewrite Hn.
    symmetry. apply (Z.div_unique _ _ _ 30000); lia.
  - intros s e ts te -> -> Ls Le Hs He Hle.
    destruct (Date_parse_minutes tz s ts Ls Hs) as [a Ha].
    destruct (Date_parse_minutes tz e te Le He) as [b Hb].
    exists (b - a). split; [lia |].
    rewrite (computeHours_valid tz (VStr s) (VStr e) ts te Hs He Hle). do 2 f_equal.
    symmetry. apply (Z.div_unique _ _ _ 30000); lia.
  - intros ts te Hs He Hlt. unfold computeHours. rewrite Hs, He. cbn [Date_sub].
    replace (te - ts <? 0) with true by (symmetry; apply Z.ltb_lt; lia). reflexivity.
  - exact Hinv.
  - intros [-> | [-> | [-> | ->]]]; apply Hinv; [left | left | right | right]; reflexivity.
  - apply computeHours_nonneg.
Qed.

(** C1 on the timestamps of the source's own comment: 09:00 to 17:15 is 495 minutes. *)
Lemma C1_computeHours_witness :
  computeHours 300 (VStr "2025-08-02T09:00") (VStr "2025-08-02T17:15") = (inject_Z 495 / 60)%Q.
Proof.
  destruct (C1_computeHours 300 (VStr "2025-08-02T09:00") (VStr "2025-08-02T17:15"))
    as [H _].
  destruct (H 1754143200000 1754172900000 eq_refl eq_refl) as (m & Hm & _ & Hn);
    [lia |].
  rewrite Hm, (Hn 495); [reflexivity | lia].
Defined.

(** ** Binary64 arithmetic *)

Section NumberFacts.

Import Number.

Lemma pow2_pos (e : Z) : (0 < pow2 e)%Q.
Proof. apply Qpower_0_lt. reflexivity. Qed.

Lemma pow2_add (a b : Z) : (pow2 (a + b) == pow2 a * pow2 b)%Q.
Proof. apply Qpower_plus. discriminate. Qed.

Lemma pow2_le (a b : Z) : a <= b -> (pow2 a <= pow2 b)%Q.
Proof. intros H. apply Qpower_le_compat_l; [exact H | discriminate]. Qed.

Lemma pow2_lt (a b : Z) : a < b -> (pow2 a < pow2 b)%Q.
Proof. intros H. apply Qpower_lt_compat_l; [exact H | reflexivity]. Qed.

Lemma pow2_lt_inv (a b : Z) : (pow2 a < pow2 b)%Q -> a < b.
Proof. intros H. apply (Qpower_lt_compat_l_inv 2); [exact H | reflexivity]. Qed.

Lemma pow2_Z (n : Z) : 0 <= n -> (pow2 n == inject_Z (2 ^ n))%Q.
Proof. intros H. symmetry. apply (Zpower_Qpower 2 n H). Qed.

(** [ilog2 q] is the binary order of magnitude of a positive [q]. *)
Lemma ilog2_spec (q : Q) :
  (0 < q)%Q -> (pow2 (ilog2 q) <= q < pow2 (ilog2 q + 1))%Q.
Proof.
  intros Hq. destruct q as [n d].
  assert (Hn : 0 < n) by (unfold Qlt in Hq; cbn in Hq; lia).
  unfold ilog2. cbn [Qnum Qden].
  set (a := Z.log2 n). set (b := Z.log2 (Z.pos d)).
  destruct (Z.log2_spec n Hn) as [Ha1 Ha2]. fold a in Ha1, Ha2.
  destruct (Z.log2_spec (Z.pos d) eq_refl) as [Hb1 Hb2]. fold b in Hb1, Hb2.
  assert (Ha0 : 0 <= a) by apply Z.log2_nonneg.
  assert (Hb0 : 0 <= b) by apply Z.log2_nonneg.
  assert (HD : (0 < inject_Z (Z.pos d))%Q) by reflexivity.
  assert (Hq' : (n # d == inject_Z n / inject_Z (Z.pos d))%Q) by apply Qmake_Qdiv.
  assert (Hup : (n # d < pow2 (a - b + 1))%Q).
  { rewrite Hq'. apply Qlt_shift_div_r; [exact HD |].
    apply Qlt_le_trans with (pow2 (a + 1)).
    - rewrite pow2_Z by lia. rewrite <- Zlt_Qlt. rewrite <- Z.add_1_r in Ha2. exact Ha2.
    - replace (a + 1) with ((a - b + 1) + b) by lia. rewrite pow2_add.
      apply Qmult_le_l; [apply pow2_pos |].
      rewrite pow2_Z by lia. rewrite <- Zle_Qle. exact Hb1. }
  assert (Hlo : (pow2 (a - b - 1) < n # d)%Q).
  { rewrite Hq'. apply Qlt_shift_div_l; [exact HD |].
    apply Qlt_le_trans with (pow2 a).
    - replace a with ((a - b - 1) + (b + 1)) at 2 by lia. rewrite pow2_add.
      apply Qmult_lt_l; [apply pow2_pos |].
      rewrite pow2_Z by lia. rewrite <- Zlt_Qlt. rewrite <- Z.add_1_r in Hb2. exact Hb2.
    - rewrite pow2_Z by lia. rewrite <- Zle_Qle. exact Ha1. }
  destruct (Qle_bool (pow2 (a - b)) (n # d)) eqn:E.
  - apply Qle_bool_iff in E. split; assumption.
  - assert (Hlt : (n # d < pow2 (a - b))%Q).
    { apply Qnot_le_lt. intros H. apply Qle_bool_iff in H. congruence. }
    replace (a - b - 1 + 1) with (a - b) by lia. split; [apply Qlt_le_weak |]; assumption.
Qed.

(** The binary order of magnitude is the only one. *)
Lemma ilog2_unique (q : Q) (k : Z) :
  (pow2 k <= q < pow2 (k + 1))%Q -> ilog2 q = k.
Proof.
  intros [H1 H2].
  assert (Hq : (0 < q)%Q) by (eapply Qlt_le_trans; [apply pow2_pos | exact H1]).
  destruct (ilog2_spec q Hq) as [S1 S2].
  assert (A : k < ilog2 q + 1) by (apply pow2_lt_inv; eapply Qle_lt_trans; eassumption).
  assert (B : ilog2 q < k + 1) by (apply pow2_lt_inv; eapply Qle_lt_trans; eassumption).
  lia.
Qed.

(** Rounding to the nearest integer moves by a half at most. *)
Lemma round_half_even_bounds (s : Q) :
  (- (1 # 2) <= inject_Z (round_half_even s) - s <= 1 # 2)%Q.
Proof.
  unfold round_half_even.
  pose proof (Qfloor_le s) as Hle. pose proof (Qlt_floor s) as Hlt.
  rewrite inject_Z_plus in Hlt. change (inject_Z 1) with 1%Q in Hlt.
  destruct (s - inject_Z (Qfloor s) ?= 1 # 2)%Q eqn:E.
  - apply Qeq_alt in E. destruct (Z.even (Qfloor s)).
    + split; lra.
    + rewrite inject_Z_plus. change (inject_Z 1) with 1%Q. split; lra.
  - apply Qlt_alt in E. split; lra.
  - apply Qgt_alt in E. rewrite inject_Z_plus. change (inject_Z 1) with 1%Q. split; lra.
Qed.

(** An integer rounds to itself. *)
Lemma round_half_even_Z (s : Q) (z : Z) : (s == inject_Z z)%Q -> round_half_even s = z.
Proof.
  intros H. unfold round_half_even.
  assert (F : Qfloor s = z) by (rewrite (Qfloor_comp _ _ H); apply Qfloor_Z).
  rewrite F.
  assert (E : (s - inject_Z z ?= 1 # 2)%Q = Lt).
  { apply Qlt_alt. rewrite H. unfold Qminus. rewrite Qplus_opp_r. reflexivity. }
  rewrite E. reflexivity.
Qed.

Lemma round_half_even_nonneg (s : Q) : (0 <= s)%Q -> 0 <= round_half_even s.
Proof.
  intros H. unfold round_half_even.
  assert (F : 0 <= Qfloor s).
  { change 0 with (Qfloor 0). apply Qfloor_resp_le. exact H. }
  destruct (s - inject_Z (Qfloor s) ?= 1 # 2)%Q; [destruct (Z.even _) | |]; lia.
Qed.

End NumberFacts.

Section RoundingFacts.

Import Number.

Lemma Qabs_pos_lt (q : Q) : ~ (q == 0)%Q -> (0 < Qabs q)%Q.
Proof.
  intros H. apply Qabs_case; intros Hs.
  - destruct (Qlt_le_dec 0 q) as [L | L]; [exact L |]. exfalso. apply H. lra.
  - destruct (Qlt_le_dec q 0) as [L | L]; [lra |]. exfalso. apply H. lra.
Qed.

Lemma exponent_ge (q : Q) : -1074 <= exponent q.
Proof. unfold exponent. lia. Qed.

(** Below the exponent: [q] has at most 53 bits above it. *)
Lemma exponent_above (q : Q) :
  ~ (q == 0)%Q -> (Qabs q < pow2 (exponent q + 53))%Q.
Proof.
  intros H. destruct (ilog2_spec (Qabs q) (Qabs_pos_lt q H)) as [_ Hup].
  eapply Qlt_le_trans; [exact Hup |]. apply pow2_le. unfold exponent. lia.
Qed.

(** The step of the binary64 values around [q]: [2^-52] of [q] at most,
    or the step [2^-1074] of the subnormal values. *)
Lemma exponent_step (q : Q) :
  ~ (q == 0)%Q ->
  (pow2 (exponent q) <= Qabs q * pow2 (-52))%Q \/ exponent q = -1074.
Proof.
  intros H. destruct (ilog2_spec (Qabs q) (Qabs_pos_lt q H)) as [Hlo _].
  unfold exponent. destruct (Z.max_spec (ilog2 (Qabs q) - 52) (-1074)) as [[_ ->] | [_ ->]].
  - right. reflexivity.
  - left. replace (ilog2 (Qabs q) - 52) with (ilog2 (Qabs q) + -52) by lia.
    rewrite pow2_add. apply Qmult_le_compat_r; [exact Hlo |].
    apply Qlt_le_weak, pow2_pos.
Qed.

Lemma exponent_normal (q : Q) :
  (pow2 (-1022) <= Qabs q)%Q -> exponent q = ilog2 (Qabs q) - 52.
Proof.
  intros H.
  assert (Hq : (0 < Qabs q)%Q) by (eapply Qlt_le_trans; [apply (pow2_pos (-1022)) | exact H]).
  destruct (ilog2_spec (Qabs q) Hq) as [_ Hup].
  assert (-1022 < ilog2 (Qabs q) + 1) by (apply pow2_lt_inv; eapply Qle_lt_trans; eassumption).
  unfold exponent. lia.
Qed.

(** What rounding to the step [2^e] does to [q]. *)
Lemma round_step_error (q : Q) (e : Z) :
  let x := (inject_Z (round_half_even (q / pow2 e)) * pow2 e)%Q in
  (- (pow2 e / 2) <= x - q <= pow2 e / 2)%Q.
Proof.
  intros x. subst x.
  pose proof (pow2_pos e) as Hp.
  pose proof (round_half_even_bounds (q / pow2 e)) as B.
  set (m := inject_Z (round_half_even (q / pow2 e))) in *.
  assert (Hs : (q == q / pow2 e * pow2 e)%Q) by (field; lra).
  set (s := (q / pow2 e)%Q) in *.
  set (p := pow2 e) in *.
  assert (E : (m * p - q == (m - s) * p)%Q) by (rewrite Hs at 1; ring).
  rewrite E.
  assert (U : ((m - s) * p <= (1 # 2) * p)%Q) by (apply Qmult_le_compat_r; lra).
  assert (L : (- (1 # 2) * p <= (m - s) * p)%Q) by (apply Qmult_le_compat_r; lra).
  unfold Qdiv. change (/ 2)%Q with (1 # 2)%Q. split; lra.
Qed.

End RoundingFacts.

(** A power of two as a numeral, for [lra]. *)
Ltac pow2_num e :=
  let v := eval vm_compute in (Number.pow2 e) in
  change (Number.pow2 e) with v in *.

Section OfQFacts.

Import Number.

Lemma exponent_step_normal (q : Q) :
  (pow2 (-1022) <= Qabs q)%Q -> (pow2 (exponent q) <= Qabs q * pow2 (-52))%Q.
Proof.
  intros H. rewrite (exponent_normal q H).
  assert (Hq : (0 < Qabs q)%Q) by (eapply Qlt_le_trans; [apply (pow2_pos (-1022)) | exact H]).
  destruct (ilog2_spec (Qabs q) Hq) as [Hlo _].
  replace (ilog2 (Qabs q) - 52) with (ilog2 (Qabs q) + -52) by lia.
  rewrite pow2_add. apply Qmult_le_compat_r; [exact Hlo |].
  apply Qlt_le_weak, pow2_pos.
Qed.

Lemma Qred_Qred (x : Q) : Qred (Qred x) = Qred x.
Proof. apply Qred_complete, Qred_correct. Qed.

(** Rounding a non-negative rational below [2^1023] to binary64: the
    result is finite, and away from it by [2^-53] of it at most, or by
    half the step [2^-1074] of the subnormal values. *)
Lemma of_Q_nonneg (q : Q) :
  (0 <= q)%Q -> (q < pow2 1023)%Q ->
  exists x,
    of_Q q = Finite x /\ Qred x = x /\ (0 <= x)%Q /\
    (q - (pow2 (-53) * q + pow2 (-1075)) <= x <= q + (pow2 (-53) * q + pow2 (-1075)))%Q /\
    ((pow2 (-1022) <= q)%Q -> (q - pow2 (-53) * q <= x <= q + pow2 (-53) * q)%Q) /\
    ((q == 0)%Q -> (x == 0)%Q).
Proof.
  intros H0 Hmax. unfold of_Q.
  destruct (Qeq_bool q 0) eqn:Ez.
  - apply Qeq_bool_iff in Ez. exists 0%Q.
    split; [reflexivity |]. split; [reflexivity |]. split; [lra |].
    pow2_num (-53). pow2_num (-1075). pow2_num (-1022).
    repeat split; try lra.
  - assert (Hne : ~ (q == 0)%Q) by (intros E; apply Qeq_bool_iff in E; congruence).
    assert (Hq : (0 < q)%Q) by (destruct (Qlt_le_dec 0 q); [assumption | exfalso; apply Hne; lra]).
    assert (Ha : (Qabs q == q)%Q) by (apply Qabs_pos; exact H0).
    pose proof (round_step_error q (exponent q)) as B. cbv zeta in B.
    pose proof (pow2_pos (exponent q)) as Hp.
    assert (Hm : 0 <= round_half_even (q / pow2 (exponent q))).
    { apply round_half_even_nonneg. apply Qle_shift_div_l; [exact Hp | lra]. }
    set (m := round_half_even (q / pow2 (exponent q))) in *.
    set (x := (inject_Z m * pow2 (exponent q))%Q) in *.
    assert (Hx : (0 <= x)%Q).
    { subst x. apply Qmult_le_0_compat; [| lra]. change 0%Q with (inject_Z 0).
      rewrite <- Zle_Qle. exact Hm. }
    assert (Hstep : (pow2 (exponent q) / 2 <= pow2 (-53) * q + pow2 (-1075))%Q).
    { destruct (exponent_step q Hne) as [S | S].
      - rewrite Ha in S. pow2_num (-52). pow2_num (-53). pow2_num (-1075).
        unfold Qdiv. change (/ 2)%Q with (1 # 2)%Q. lra.
      - rewrite S. pow2_num (-53). pow2_num (-1075). pow2_num (-1074).
        unfold Qdiv. change (/ 2)%Q with (1 # 2)%Q. lra. }
    assert (Hfin : Qle_bool (pow2 1024) (Qabs x) = false).
    { destruct (Qle_bool (pow2 1024) (Qabs x)) eqn:E; [| reflexivity].
      apply Qle_bool_iff in E. rewrite (Qabs_pos x Hx) in E. exfalso.
      pow2_num (-53). pow2_num (-1075). pow2_num 1023. pow2_num 1024. lra. }
    rewrite Hfin. exists (Qred x).
    split; [reflexivity |]. split; [apply Qred_Qred |]. rewrite (Qred_correct x).
    split; [exact Hx |]. split; [split; lra |]. split.
    + intros Hn. rewrite <- Ha in Hn. pose proof (exponent_step_normal q Hn) as S.
      rewrite Ha in S. pow2_num (-52). pow2_num (-53).
      unfold Qdiv in B. change (/ 2)%Q with (1 # 2)%Q in B. split; lra.
    + intros E. contradiction.
Qed.

End OfQFacts.

Section ValidFacts.

Import Number.

Lemma Qle_bool_false (a b : Q) : Qle_bool a b = false <-> (b < a)%Q.
Proof.
  split.
  - intros E. apply Qnot_le_lt. intros H. apply Qle_bool_iff in H. congruence.
  - intros H. destruct (Qle_bool a b) eqn:E; [| reflexivity].
    apply Qle_bool_iff in E. exfalso. apply (Qlt_irrefl a). eapply Qle_lt_trans; eassumption.
Qed.

(** What [of_Q] returns is a binary64 value. *)
Lemma of_Q_valid (q : Q) : valid (of_Q q).
Proof.
  unfold of_Q. destruct (Qeq_bool q 0) eqn:Ez.
  - cbn. split; [| split; [reflexivity | reflexivity]].
    exists 0, 0. split; [lia |]. split; [cbn; lia | reflexivity].
  - assert (Hne : ~ (q == 0)%Q) by (intros E; apply Qeq_bool_iff in E; congruence).
    set (e := exponent q).
    set (m := round_half_even (q / pow2 e)).
    destruct (Qle_bool (pow2 1024) (Qabs (inject_Z m * pow2 e))) eqn:Eo; [exact I |].
    apply Qle_bool_false in Eo. cbn [valid].
    split; [| split; [apply Qred_Qred | rewrite (Qred_correct _); exact Eo]].
    exists m, e. split; [apply exponent_ge |]. split; [| apply Qred_correct].
    pose proof (exponent_above q Hne) as Ha. fold e in Ha.
    replace (e + 53) with (53 + e) in Ha by lia. rewrite pow2_add in Ha.
    apply Qabs_Qlt_condition in Ha. destruct Ha as [Ha1 Ha2].
    pose proof (pow2_pos e) as Hp.
    assert (S1 : (q / pow2 e < pow2 53)%Q) by (apply Qlt_shift_div_r; assumption).
    assert (S2 : (- pow2 53 < q / pow2 e)%Q).
    { apply Qlt_shift_div_l; [exact Hp |].
      assert (E : (- pow2 53 * pow2 e == - (pow2 53 * pow2 e))%Q) by ring.
      rewrite E. exact Ha1. }
    pose proof (round_half_even_bounds (q / pow2 e)) as B. fold m in B.
    pow2_num 53.
    assert (U : (inject_Z m < inject_Z (2 ^ 53 + 1))%Q).
    { change (inject_Z (2 ^ 53 + 1)) with (9007199254740993 # 1)%Q. lra. }
    assert (L : (inject_Z (- 2 ^ 53 - 1) < inject_Z m)%Q).
    { change (inject_Z (- 2 ^ 53 - 1)) with (-9007199254740993 # 1)%Q. lra. }
    rewrite <- Zlt_Qlt in U, L. lia.
Qed.

(** A binary64 value rounds to itself. *)
Lemma of_Q_fixed (x : Q) :
  representable x -> (Qabs x < pow2 1024)%Q -> of_Q x = Finite (Qred x).
Proof.
  intros (m & e & He & Hm & Hx) Hmax. unfold of_Q.
  destruct (Qeq_bool x 0) eqn:Ez.
  { apply Qeq_bool_iff in Ez. rewrite (Qred_complete x 0 Ez). reflexivity. }
  assert (Hne : ~ (x == 0)%Q) by (intros E; apply Qeq_bool_iff in E; congruence).
  pose proof (pow2_pos e) as Hpe.
  assert (Hz : exists z : Z, (x / pow2 (exponent x) == inject_Z z)%Q).
  { destruct (Z_le_gt_dec (exponent x) e) as [Hle | Hgt].
    - exists (m * 2 ^ (e - exponent x)).
      rewrite inject_Z_mult, <- (pow2_Z (e - exponent x)) by lia.
      assert (E : (pow2 e == pow2 (e - exponent x) * pow2 (exponent x))%Q).
      { rewrite <- pow2_add. replace (e - exponent x + exponent x) with e by lia. reflexivity. }
      generalize dependent (exponent x). intros e' He' E.
      rewrite Hx, E. field. pose proof (pow2_pos e'). lra.
    - pose proof (Qabs_pos_lt x Hne) as Hap.
      destruct (ilog2_spec (Qabs x) Hap) as [Hlo _].
      set (k := ilog2 (Qabs x)) in *.
      assert (Hk : exponent x = k - 52) by (unfold exponent in *; fold k in Hgt |- *; lia).
      assert (Habs : (Qabs x == inject_Z (Z.abs m) * pow2 e)%Q).
      { rewrite Hx, Qabs_Qmult, (Qabs_pos (pow2 e)) by lra.
        apply Qmult_comp; [| reflexivity]. destruct m; reflexivity. }
      assert (Hup : (Qabs x <= pow2 (53 + e))%Q).
      { rewrite Habs, pow2_add. apply Qmult_le_compat_r; [| lra].
        rewrite (pow2_Z 53) by lia. rewrite <- Zle_Qle. exact Hm. }
      assert (Hk' : k = 53 + e).
      { assert (k <= 53 + e).
        { apply (Qpower_le_compat_l_inv 2); [| reflexivity].
          eapply Qle_trans; [exact Hlo | exact Hup]. }
        lia. }
      assert (Hm' : Z.abs m = 2 ^ 53).
      { assert (L : (pow2 53 * pow2 e <= inject_Z (Z.abs m) * pow2 e)%Q).
        { rewrite <- pow2_add, <- Habs, <- Hk'. exact Hlo. }
        apply Qmult_le_r in L; [| exact Hpe].
        rewrite (pow2_Z 53) in L by lia. rewrite <- Zle_Qle in L. lia. }
      exists (m / 2). rewrite Hk.
      replace (k - 52) with (1 + e) by lia. rewrite Hx, pow2_add.
      assert (M : (inject_Z m == inject_Z (m / 2) * pow2 1)%Q).
      { destruct (Z.abs_spec m) as [[_ A] | [_ A]]; rewrite Hm' in A.
        - rewrite <- A. reflexivity.
        - replace m with (- 2 ^ 53) by lia. reflexivity. }
      rewrite M. field. split; [lra |]. pow2_num 1. lra. }
  destruct Hz as [z Hz].
  rewrite (round_half_even_Z _ z Hz).
  assert (Hx0 : (inject_Z z * pow2 (exponent x) == x)%Q).
  { rewrite <- Hz. field. pose proof (pow2_pos (exponent x)). lra. }
  destruct (Qle_bool (pow2 1024) (Qabs (inject_Z z * pow2 (exponent x)))) eqn:Eo.
  - apply Qle_bool_iff in Eo. rewrite Hx0 in Eo. exfalso.
    apply (Qlt_irrefl (pow2 1024)). eapply Qle_lt_trans; eassumption.
  - rewrite (Qred_complete _ _ Hx0). reflexivity.
Qed.

Lemma add_valid (a b : t) : valid (add a b).
Proof.
  destruct a as [| s | p], b as [| s' | q]; cbn [add]; try exact I.
  - destruct (Bool.eqb s s'); exact I.
  - apply of_Q_valid.
Qed.

Lemma mul_valid (a b : t) : valid (mul a b).
Proof.
  destruct a as [| s | p], b as [| s' | q]; cbn [mul]; try exact I.
  - destruct (Qeq_bool q 0); exact I.
  - destruct (Qeq_bool p 0); exact I.
  - apply of_Q_valid.
Qed.

Lemma div_valid (a b : t) : valid (div a b).
Proof.
  destruct a as [| s | p], b as [| s' | q]; cbn [div]; try exact I.
  - cbn. split; [| split; [reflexivity | reflexivity]].
    exists 0, 0. split; [lia |]. split; [cbn; lia | reflexivity].
  - destruct (Qeq_bool q 0); [destruct (Qeq_bool p 0); exact I | apply of_Q_valid].
Qed.

(** Adding zero changes nothing. *)
Lemma add_0_r (x : t) : valid x -> add x (Finite 0) = x.
Proof.
  destruct x as [| s | q]; cbn [add valid]; try reflexivity.
  intros (Hr & Hc & Hmax).
  assert (E : (q + 0 == q)%Q) by ring.
  rewrite of_Q_fixed.
  - rewrite (Qred_complete _ _ E), Hc. reflexivity.
  - destruct Hr as (m & e & He & Hm & Hx). exists m, e. rewrite E. auto.
  - rewrite E. exact Hmax.
Qed.

End ValidFacts.

(** ** Rows and totals *)

Section PayFacts.

Variable tz : Z.
Variable hourlyRate : Number.t.

(** Every shift of the period has its row, in the order of the shifts. *)
Lemma fold_tbody (shifts : list Doc) : forall t : Table,
  tbody (fold_left (rowStep tz hourlyRate) shifts t)
  = (tbody t ++ List.map (tableRow tz hourlyRate) shifts)%list.
Proof.
  induction shifts as [|s shifts IH]; intros t; cbn [fold_left List.map].
  - rewrite app_nil_r. reflexivity.
  - rewrite IH. unfold rowStep.
    destruct (rowAmounts tz hourlyRate s) as [[c h] py]. cbn [tbody].
    rewrite <- app_assoc. reflexivity.
Qed.

Lemma field_spread_single (d : Doc) (k k' : string) (v : value) :
  field (spread d (<[k := v]> ∅)) k' = if decide (k = k') then v else field d k'.
Proof.
  unfold field, spread. rewrite lookup_union, lookup_insert, lookup_empty.
  destruct (decide (k = k')) as [-> | Hne].
  - destruct (d !! k'); reflexivity.
  - destruct (d !! k'); reflexivity.
Qed.

Lemma field_insert (d : Doc) (k k' : string) (v : value) :
  field (<[k := v]> d) k' = if decide (k = k') then v else field d k'.
Proof. unfold field. rewrite lookup_insert. destruct (decide (k = k')); reflexivity. Qed.

Lemma or_empty_truthy (a : value) : truthy (JS.or a (VStr "")) = truthy a.
Proof. unfold JS.or. destruct (truthy a) eqn:E; [exact E | reflexivity]. Qed.

Lemma or_empty_of_truthy (a : value) : truthy a = true -> JS.or a (VStr "") = a.
Proof. unfold JS.or. intros ->. reflexivity. Qed.

Lemma or_empty_of_falsy (a : value) : truthy a = false -> JS.or a (VStr "") = VStr "".
Proof. unfold JS.or. intros ->. reflexivity. Qed.

(** The effective start of a shift. *)
Lemma actualStartStr_cases (shift : Doc) :
  actualStartStr shift
  = if truthy (field shift "adjTimeIn") then field shift "adjTimeIn"
    else if truthy (field shift "timeIn") then field shift "timeIn" else VStr "".
Proof.
  unfold actualStartStr, adjInStr, startTimeStr.
  destruct (truthy (field shift "adjTimeIn")) eqn:Ea.
  - rewrite (or_empty_of_truthy _ Ea). unfold JS.or at 1. rewrite Ea. reflexivity.
  - rewrite (or_empty_of_falsy _ Ea). unfold JS.or at 1. cbn [truthy String.eqb negb].
    unfold JS.or. destruct (truthy (field shift "timeIn")); reflexivity.
Qed.

(** The effective end of a shift. *)
Lemma actualEndStr_cases (shift : Doc) :
  actualEndStr shift
  = if truthy (field shift "adjTimeOut") then field shift "adjTimeOut"
    else if truthy (field shift "timeOut") then field shift "timeOut" else VStr "".
Proof.
  unfold actualEndStr, adjOutStr, endTimeStr.
  destruct (truthy (field shift "adjTimeOut")) eqn:Ea.
  - rewrite (or_empty_of_truthy _ Ea). unfold JS.or at 1. rewrite Ea. reflexivity.
  - rewrite (or_empty_of_falsy _ Ea). unfold JS.or at 1. cbn [truthy String.eqb negb].
    unfold JS.or. destruct (truthy (field shift "timeOut")); reflexivity.
Qed.

End PayFacts.

(** ** The effective range of a shift *)

(** C3. The start used for the hours and the pay of a shift is [adjTimeIn]
    when it is present (not empty), else [timeIn]; the end is [adjTimeOut]
    when present, else [timeOut].  With [adjTimeIn] present, [timeIn] is
    ignored: whatever it is set to, before or after the adjustment is
    written, the effective start is the adjustment and the hours and pay
    of the row are the same; and likewise for [adjTimeOut] and [timeOut]. *)
Theorem C3_effective_range (tz : Z) (hourlyRate : Number.t) (shift : Doc) (a v : value) :
  actualStartStr shift
  = (if truthy (field shift "adjTimeIn") then field shift "adjTimeIn"
     else if truthy (field shift "timeIn") then field shift "timeIn" else VStr "")
  /\ actualEndStr shift
     = (if truthy (field shift "adjTimeOut") then field shift "adjTimeOut"
        else if truthy (field shift "timeOut") then field shift "timeOut" else VStr "")
  /\ (truthy a = true ->
      actualStartStr (spread (spread shift (<["timeIn" := v]> ∅)) (<["adjTimeIn" := a]> ∅)) = a
      /\ actualStartStr (spread (spread shift (<["adjTimeIn" := a]> ∅)) (<["timeIn" := v]> ∅)) = a
      /\ actualEndStr (spread (spread shift (<["timeOut" := v]> ∅)) (<["adjTimeOut" := a]> ∅)) = a
      /\ actualEndStr (spread (spread shift (<["adjTimeOut" := a]> ∅)) (<["timeOut" := v]> ∅)) = a)
  /\ (truthy (field shift "adjTimeIn") = true ->
      rowAmounts tz hourlyRate (spread shift (<["timeIn" := v]> ∅))
      = rowAmounts tz hourlyRate shift)
  /\ (truthy (field shift "adjTimeOut") = true ->
      rowAmounts tz hourlyRate (spread shift (<["timeOut" := v]> ∅))
      = rowAmounts tz hourlyRate shift).
Proof.
  split; [apply actualStartStr_cases |].
  split; [apply actualEndStr_cases |].
  split; [| split].
  - intros Ha.
    rewrite !actualStartStr_cases, !actualEndStr_cases, !field_spread_single.
    cbn [decide]. repeat case_decide; try discriminate; try congruence.
    rewrite Ha. repeat split; reflexivity.
  - intros Ha. unfold rowAmounts.
    assert (Es : actualStartStr (spread shift (<["timeIn" := v]> ∅)) = actualStartStr shift).
    { rewrite !actualStartStr_cases, !field_spread_single.
      repeat case_decide; try congruence; rewrite ?Ha; reflexivity. }
    assert (Ee : actualEndStr (spread shift (<["timeIn" := v]> ∅)) = actualEndStr shift).
    { rewrite !actualEndStr_cases, !field_spread_single.
      repeat case_decide; try congruence; reflexivity. }
    rewrite Es, Ee. reflexivity.
  - intros Ha. unfold rowAmounts.
    assert (Es : actualStartStr (spread shift (<["timeOut" := v]> ∅)) = actualStartStr shift).
    { rewrite !actualStartStr_cases, !field_spread_single.
      repeat case_decide; try congruence; reflexivity. }
    assert (Ee : actualEndStr (spread shift (<["timeOut" := v]> ∅)) = actualEndStr shift).
    { rewrite !actualEndStr_cases, !field_spread_single.
      repeat case_decide; try congruence; rewrite ?Ha; reflexivity. }
    rewrite Es, Ee. reflexivity.
Qed.

(** C3 on a shift adjusted to start at 10:00: the punch at 09:00, or any other, is ignored. *)
Lemma C3_effective_range_witness :
  let shift : Doc :=
    <["timeIn" := VStr "2025-08-02T09:00"]>
      (<["adjTimeIn" := VStr "2025-08-02T10:00"]>
         (<["timeOut" := VStr "2025-08-02T17:00"]> ∅)) in
  actualStartStr shift = VStr "2025-08-02T10:00"
  /\ rowAmounts 0 (Number.Finite 20) (spread shift (<["timeIn" := VStr "2025-08-02T06:00"]> ∅))
     = rowAmounts 0 (Number.Finite 20) shift.
Proof.
  intros shift.
  destruct (C3_effective_range 0 (Number.Finite 20) shift (VStr "x") (VStr "2025-08-02T06:00"))
    as (Hs & _ & _ & Hin & _).
  split; [rewrite Hs; reflexivity | apply Hin; reflexivity].
Defined.

(** ** Rows in binary64 *)

Section RowFacts.

Variable tz : Z.

(** The hours of a shift are a whole number of minutes over 60: zero, or
    a sixtieth at least. *)
Lemma computeHours_grid (startStr endStr : value) :
  (computeHours tz startStr endStr == 0)%Q \/ (1 # 60 <= computeHours tz startStr endStr)%Q.
Proof.
  unfold computeHours.
  destruct (Date_sub _ _) as [d|]; [| left; reflexivity].
  destruct (d <? 0) eqn:E; [left; reflexivity |]. apply Z.ltb_ge in E.
  rewrite Math_round_minutes.
  assert (Hm : 0 <= (d + 30000) / 60000) by (apply Z.div_pos; lia).
  destruct (Z.eq_dec ((d + 30000) / 60000) 0) as [-> | Hne]; [left; reflexivity |].
  right. set (m := (d + 30000) / 60000) in *.
  assert (H1 : (inject_Z 1 <= inject_Z m)%Q) by (rewrite <- Zle_Qle; lia).
  change (inject_Z 1) with 1%Q in H1.
  unfold Qdiv. change (/ 60)%Q with (1 # 60)%Q. lra.
Qed.

(** The binary64 value of a number of hours. *)
Lemma hours_Number (H : Q) :
  ((H == 0)%Q \/ (1 # 60 <= H)%Q) -> (H <= Number.pow2 500)%Q ->
  exists h,
    Number.of_Q H = Number.Finite h /\ (0 <= h)%Q /\
    (H - Number.pow2 (-53) * H <= h <= H + Number.pow2 (-53) * H)%Q.
Proof.
  intros Hgrid Hmax.
  assert (H0 : (0 <= H)%Q) by (destruct Hgrid; lra).
  assert (H1 : (H < Number.pow2 1023)%Q).
  { eapply Qle_lt_trans; [exact Hmax |]. apply pow2_lt. lia. }
  destruct (of_Q_nonneg H H0 H1) as (h & Eh & _ & Hh0 & _ & Hn & Hz).
  exists h. split; [exact Eh |]. split; [exact Hh0 |].
  destruct Hgrid as [Z0 | N].
  - rewrite (Hz Z0), Z0. pow2_num (-53). split; lra.
  - apply Hn. pow2_num (-1022). lra.
Qed.

(** The pay of a row, step by step: the binary64 product of the hours
    and the rate, that product in cents, and the whole number of cents
    [Math.round] makes of it, which is within half a cent of the exact
    product, up to [2^-51] of it. *)
Lemma pay_Number (H r : Q) :
  ((H == 0)%Q \/ (1 # 60 <= H)%Q) -> (H <= Number.pow2 500)%Q ->
  (0 <= r <= Number.pow2 500)%Q ->
  exists (h y : Q) (c : Z),
    Number.of_Q H = Number.Finite h /\
    Number.mul (Number.Finite h) (Number.Finite r) = Number.Finite y /\
    Number.Math_round (Number.mul (Number.Finite y) (Number.Finite 100))
    = Number.Finite (inject_Z c) /\
    (0 <= y)%Q /\
    (H * r - (Number.pow2 (-51) * (H * r) + Number.pow2 (-1060)) <= y
     <= H * r + (Number.pow2 (-51) * (H * r) + Number.pow2 (-1060)))%Q /\
    0 <= c /\
    (- (1 # 2) - (Number.pow2 (-51) * (H * r * 100) + Number.pow2 (-1060))
     < inject_Z c - H * r * 100
     <= (1 # 2) + (Number.pow2 (-51) * (H * r * 100) + Number.pow2 (-1060)))%Q.
Proof.
  intros Hgrid Hmax [Hr0 Hrmax].
  assert (H0 : (0 <= H)%Q) by (destruct Hgrid; lra).
  destruct (hours_Number H Hgrid Hmax) as (h & Eh & Hh0 & Hh1 & Hh2).
  assert (HY0 : (0 <= H * r)%Q) by (apply Qmult_le_0_compat; assumption).
  assert (HYmax : (H * r <= Number.pow2 500 * Number.pow2 500)%Q).
  { apply Qmult_le_compat_nonneg; split; assumption. }
  rewrite <- pow2_add in HYmax. change (500 + 500) with 1000 in HYmax.
  pose proof (Qmult_le_compat_r _ _ r Hh1 Hr0) as P1.
  pose proof (Qmult_le_compat_r _ _ r Hh2 Hr0) as P2.
  assert (Hhr0 : (0 <= h * r)%Q) by (apply Qmult_le_0_compat; assumption).
  assert (Hhr1 : (h * r < Number.pow2 1023)%Q).
  { pow2_num (-53). pow2_num 1000. pow2_num 1023. lra. }
  destruct (of_Q_nonneg (h * r) Hhr0 Hhr1) as (y & Ey & _ & Hy0 & Hy & _ & _).
  assert (Hy100 : (0 <= y * 100)%Q) by lra.
  assert (Hy1 : (y * 100 < Number.pow2 1023)%Q).
  { pow2_num (-53). pow2_num (-1075). pow2_num 1000. pow2_num 1023. lra. }
  destruct (of_Q_nonneg (y * 100) Hy100 Hy1) as (p & Ep & _ & Hp0 & Hp & _ & _).
  exists h, y, (Qfloor (p + (1 # 2))).
  split; [exact Eh |]. split; [exact Ey |].
  split; [cbn [Number.mul]; rewrite Ep; reflexivity |].
  split; [exact Hy0 |].
  pose proof (Qfloor_le (p + (1 # 2))) as F1.
  pose proof (Qlt_floor (p + (1 # 2))) as F2.
  rewrite inject_Z_plus in F2. change (inject_Z 1) with 1%Q in F2.
  assert (Hc : 0 <= Qfloor (p + (1 # 2))).
  { change 0 with (Qfloor 0). apply Qfloor_resp_le. lra. }
  set (c := inject_Z (Qfloor (p + (1 # 2)))) in *.
  pow2_num (-53). pow2_num (-51). pow2_num (-1075). pow2_num (-1060). pow2_num 1000.
  split; [split; lra |]. split; [exact Hc |]. split; lra.
Qed.

End RowFacts.

Section CentsFacts.

Variable tz : Z.

Lemma Qfloor_unique (v : Q) (c : Z) : (inject_Z c <= v < inject_Z c + 1)%Q -> Qfloor v = c.
Proof.
  intros [H1 H2].
  assert (A : c <= Qfloor v).
  { rewrite <- (Qfloor_Z c). apply Qfloor_resp_le. exact H1. }
  assert (B : Qfloor v < c + 1).
  { rewrite Zlt_Qlt, inject_Z_plus. change (inject_Z 1) with 1%Q.
    eapply Qle_lt_trans; [apply Qfloor_le | exact H2]. }
  lia.
Qed.

(** The binary64 value of a whole number of cents, and the cents read
    back from it. *)
Lemma cents_Number (c : Z) :
  0 <= c <= 2 ^ 50 ->
  exists x,
    Number.of_Q (inject_Z c / 100) = Number.Finite x /\ (0 <= x)%Q /\
    (- (Number.pow2 (-53) * inject_Z c) <= x * 100 - inject_Z c
     <= Number.pow2 (-53) * inject_Z c)%Q /\
    cents (Number.of_Q (inject_Z c / 100)) = c.
Proof.
  intros [Hc0 Hc1].
  assert (Q0 : (0 <= inject_Z c)%Q) by (change 0%Q with (inject_Z 0); rewrite <- Zle_Qle; exact Hc0).
  assert (Q1 : (inject_Z c <= inject_Z (2 ^ 50))%Q) by (rewrite <- Zle_Qle; exact Hc1).
  change (inject_Z (2 ^ 50)) with (1125899906842624 # 1)%Q in Q1.
  assert (D0 : (0 <= inject_Z c / 100)%Q).
  { unfold Qdiv. change (/ 100)%Q with (1 # 100)%Q. lra. }
  assert (D1 : (inject_Z c / 100 < Number.pow2 1023)%Q).
  { unfold Qdiv. change (/ 100)%Q with (1 # 100)%Q. pow2_num 1023. lra. }
  destruct (of_Q_nonneg _ D0 D1) as (x & Ex & _ & Hx0 & _ & Hn & Hz).
  exists x. split; [exact Ex |]. split; [exact Hx0 |].
  assert (B : (- (Number.pow2 (-53) * inject_Z c) <= x * 100 - inject_Z c
               <= Number.pow2 (-53) * inject_Z c)%Q).
  { destruct (Z.eq_dec c 0) as [-> | Hne].
    - assert (E : (inject_Z 0 / 100 == 0)%Q) by reflexivity.
      rewrite (Hz E). pow2_num (-53). change (inject_Z 0) with 0%Q. split; lra.
    - assert (C1 : (1 <= inject_Z c)%Q).
      { change 1%Q with (inject_Z 1). rewrite <- Zle_Qle. lia. }
      unfold Qdiv in Hn. change (/ 100)%Q with (1 # 100)%Q in Hn.
      assert (N : (Number.pow2 (-1022) <= inject_Z c * (1 # 100))%Q)
        by (pow2_num (-1022); lra).
      specialize (Hn N). pow2_num (-53). split; lra. }
  split; [exact B |].
  rewrite Ex. cbn [cents]. unfold Math_round. apply Qfloor_unique.
  pow2_num (-53). split; lra.
Qed.

End CentsFacts.

Section RowBounds.

Variable tz : Z.

(** A row of up to 1000 hours at a rate of up to 10000: its pay is the
    binary64 value of a whole number of cents, within half a cent, and a
    millionth of one, of the exact hours times rate; the product that is
    not rounded to the cent is within a millionth of a cent of it. *)
Lemma row_bounds (r : Q) (s : Doc) :
  (0 <= r <= 10000)%Q ->
  (computeHours tz (actualStartStr s) (actualEndStr s) <= 1000)%Q ->
  let pay := row_pay (tableRow tz (Number.Finite r) s) in
  exists x y : Q,
    pay = Number.Finite x /\
    pay = Number.of_Q (inject_Z (cents pay) / 100) /\
    0 <= cents pay <= 1000000001 /\
    (0 <= x <= 10000001)%Q /\
    (- (1 # 1000000) <= x * 100 - inject_Z (cents pay) <= 1 # 1000000)%Q /\
    (- (1 # 2) - (1 # 1000000) <= inject_Z (cents pay) - exactCents tz r s
     <= (1 # 2) + (1 # 1000000))%Q /\
    unroundedRow tz (Number.Finite r) s = Number.Finite y /\
    (0 <= y <= 10000001)%Q /\
    (- (1 # 1000000) <= y * 100 - exactCents tz r s <= 1 # 1000000)%Q /\
    (0 <= exactCents tz r s <= 1000000000)%Q.
Proof.
  intros [Hr0 Hr1] HH pay. subst pay.
  unfold tableRow, unroundedRow, exactCents, rowAmounts.
  destruct (truthy (actualStartStr s) && truthy (actualEndStr s)); cbn [row_pay].
  - set (H := computeHours tz (actualStartStr s) (actualEndStr s)) in *.
    pose proof (computeHours_grid tz (actualStartStr s) (actualEndStr s)) as Hgrid. fold H in Hgrid.
    assert (H0 : (0 <= H)%Q) by (destruct Hgrid; lra).
    assert (Hmax : (H <= Number.pow2 500)%Q).
    { eapply Qle_trans; [exact HH |]. apply Qle_trans with (Number.pow2 10).
      - pow2_num 10. lra.
      - apply pow2_le. lia. }
    assert (Hrmax : (r <= Number.pow2 500)%Q).
    { eapply Qle_trans; [exact Hr1 |]. apply Qle_trans with (Number.pow2 14).
      - pow2_num 14. lra.
      - apply pow2_le. lia. }
    destruct (pay_Number H r Hgrid Hmax (conj Hr0 Hrmax))
      as (h & y & c & Eh & Ey & Ec & Hy0 & Hy & Hc0 & Hc).
    assert (HY : (0 <= H * r <= 1000 * 10000)%Q).
    { split; [apply Qmult_le_0_compat; assumption |].
      apply Qmult_le_compat_nonneg; split; assumption. }
    rewrite Eh, Ey, Ec.
    assert (Hpay : Number.div (Number.Finite (inject_Z c)) (Number.Finite 100)
                   = Number.of_Q (inject_Z c / 100)) by reflexivity.
    rewrite Hpay.
    assert (Hc1 : c <= 1000000001).
    { assert (L : (inject_Z c < inject_Z 1000000002)%Q).
      { change (inject_Z 1000000002) with (1000000002 # 1)%Q.
        pow2_num (-51). pow2_num (-1060). lra. }
      rewrite <- Zlt_Qlt in L. lia. }
    destruct (cents_Number c) as (x & Ex & Hx0 & Hx & Hcents); [lia |].
    rewrite Hcents. exists x, y.
    assert (Qc : (0 <= inject_Z c <= 1000000001)%Q).
    { change 0%Q with (inject_Z 0). change (1000000001 # 1)%Q with (inject_Z 1000000001).
      rewrite <- !Zle_Qle. lia. }
    pow2_num (-51). pow2_num (-53). pow2_num (-1060).
    split; [exact Ex |]. split; [reflexivity |]. split; [lia |].
    split; [split; lra |]. split; [split; lra |]. split; [split; lra |].
    split; [reflexivity |]. split; [split; lra |]. split; split; lra.
  - exists 0%Q, 0%Q. change (cents (Number.Finite 0)) with 0.
    change (inject_Z 0) with 0%Q.
    split; [reflexivity |]. split; [reflexivity |]. split; [lia |].
    repeat split; try reflexivity; lra.
Qed.

End RowBounds.

Section SumFacts.

Lemma fold_left_map_eq {A B C} (f : A -> B -> A) (g : C -> B) (l : list C) : forall a,
  fold_left f (List.map g l) a = fold_left (fun a x => f a (g x)) l a.
Proof. induction l as [|x l IH]; intros a; cbn; [reflexivity | apply IH]. Qed.

Lemma inject_nat_S (n : nat) : (inject_Z (Z.of_nat (S n)) == inject_Z (Z.of_nat n) + 1)%Q.
Proof. rewrite Nat2Z.inj_succ. unfold Z.succ. rewrite inject_Z_plus. reflexivity. Qed.

Lemma inject_nat_bounds (n m : nat) :
  (n <= m)%nat -> (0 <= inject_Z (Z.of_nat n) <= inject_Z (Z.of_nat m))%Q.
Proof.
  intros H. change 0%Q with (inject_Z 0). rewrite <- !Zle_Qle. lia.
Qed.

(** Up to a hundred amounts of up to 10000001, added one after the other
    in binary64: every addition is off by [1/8000000] at most. *)
Lemma fold_add_error (vs : list Number.t) : forall (T0 : Q) (k : nat),
  (0 <= T0 <= inject_Z (Z.of_nat k) * 10000002)%Q ->
  Forall (fun v => exists x, v = Number.Finite x /\ (0 <= x <= 10000001)%Q) vs ->
  (k + length vs <= 100)%nat ->
  exists T,
    fold_left Number.add vs (Number.Finite T0) = Number.Finite T /\
    (0 <= T <= inject_Z (Z.of_nat (k + length vs)) * 10000002)%Q /\
    (- (inject_Z (Z.of_nat (length vs)) * (1 # 8000000))
     <= T - (T0 + Qsum (List.map Number.to_Q vs))
     <= inject_Z (Z.of_nat (length vs)) * (1 # 8000000))%Q.
Proof.
  induction vs as [|v vs IH]; intros T0 k HT0 Hvs Hlen.
  - exists T0. cbn [fold_left length List.map Qsum fold_right].
    rewrite Nat.add_0_r. change (inject_Z (Z.of_nat 0)) with 0%Q.
    split; [reflexivity |]. split; [exact HT0 |]. split; lra.
  - inversion Hvs as [| v' vs' (x & -> & Hx) Hvs']; subst.
    cbn [length] in Hlen.
    destruct (inject_nat_bounds k 100 ltac:(lia)) as [K0 K1].
    change (inject_Z (Z.of_nat 100)) with 100%Q in K1.
    assert (A0 : (0 <= T0 + x)%Q) by lra.
    assert (A1 : (T0 + x < Number.pow2 1023)%Q) by (pow2_num 1023; lra).
    destruct (of_Q_nonneg (T0 + x) A0 A1) as (T1 & E1 & _ & H10 & H1 & _ & _).
    pow2_num (-53). pow2_num (-1075).
    destruct (IH T1 (S k)) as (T & ET & HT & HE).
    { rewrite inject_nat_S. split; lra. }
    { exact Hvs'. }
    { lia. }
    exists T. cbn [fold_left Number.add length List.map Qsum fold_right Number.to_Q].
    fold (Qsum (List.map Number.to_Q vs)). rewrite E1.
    split; [exact ET |].
    split; [rewrite Nat.add_succ_r; exact HT |].
    rewrite inject_nat_S. split; lra.
Qed.

End SumFacts.

Section TotalsFacts.

Variable tz : Z.

Lemma valid_zero : Number.valid (Number.Finite 0).
Proof.
  cbn. split; [| split; reflexivity].
  exists 0, 0. split; [lia |]. split; [cbn; lia | reflexivity].
Qed.

Lemma rowAmounts_valid (hourlyRate : Number.t) (s : Doc) :
  Number.valid (row_hours (tableRow tz hourlyRate s))
  /\ Number.valid (row_pay (tableRow tz hourlyRate s)).
Proof.
  unfold tableRow, rowAmounts.
  destruct (truthy (actualStartStr s) && truthy (actualEndStr s)); cbn [row_hours row_pay].
  - split; [apply of_Q_valid | apply div_valid].
  - split; apply valid_zero.
Qed.

(** One turn of the loop adds to each total what the new row shows. *)
Lemma rowStep_totals (hourlyRate : Number.t) (t : Table) (s : Doc) :
  Number.valid (totalPay t) -> Number.valid (totalHours t) ->
  let t' := rowStep tz hourlyRate t s in
  totalPay t' = Number.add (totalPay t) (row_pay (tableRow tz hourlyRate s))
  /\ totalHours t' = Number.add (totalHours t) (row_hours (tableRow tz hourlyRate s))
  /\ Number.valid (totalPay t') /\ Number.valid (totalHours t').
Proof.
  intros Vp Vh. unfold rowStep, tableRow, rowAmounts.
  destruct (truthy (actualStartStr s) && truthy (actualEndStr s));
    cbn [totalPay totalHours row_pay row_hours].
  - repeat split; try reflexivity; apply add_valid.
  - rewrite !add_0_r by assumption. repeat split; assumption.
Qed.

Lemma fold_totals (hourlyRate : Number.t) (shifts : list Doc) : forall t : Table,
  Number.valid (totalPay t) -> Number.valid (totalHours t) ->
  let rows := List.map (tableRow tz hourlyRate) shifts in
  let t' := fold_left (rowStep tz hourlyRate) shifts t in
  totalPay t' = fold_left (fun acc r => Number.add acc (row_pay r)) rows (totalPay t)
  /\ totalHours t' = fold_left (fun acc r => Number.add acc (row_hours r)) rows (totalHours t).
Proof.
  induction shifts as [|s shifts IH]; intros t Vp Vh; cbn [fold_left List.map].
  - split; reflexivity.
  - destruct (rowStep_totals hourlyRate t s Vp Vh) as (Ep & Eh & Vp' & Vh').
    cbv zeta in Ep, Eh, Vp', Vh'.
    destruct (IH _ Vp' Vh') as [IHp IHh]. cbv zeta in IHp, IHh.
    rewrite IHp, IHh, Ep, Eh. split; reflexivity.
Qed.

(** The sums over the rows of a table of up to 1000 hours a row at a
    rate of up to 10000. *)
Lemma sums_bounds (r : Q) (shifts : list Doc) :
  (0 <= r <= 10000)%Q ->
  Forall (fun s => (computeHours tz (actualStartStr s) (actualEndStr s) <= 1000)%Q) shifts ->
  let rows := List.map (tableRow tz (Number.Finite r)) shifts in
  let pays := List.map row_pay rows in
  let unrounded := List.map (unroundedRow tz (Number.Finite r)) shifts in
  let n := inject_Z (Z.of_nat (length shifts)) in
  Forall (fun row => row_pay row = Number.of_Q (inject_Z (cents (row_pay row)) / 100)) rows
  /\ Forall (fun v => exists x, v = Number.Finite x /\ (0 <= x <= 10000001)%Q) pays
  /\ Forall (fun v => exists x, v = Number.Finite x /\ (0 <= x <= 10000001)%Q) unrounded
  /\ (- (n * (1 # 1000000)) <= Qsum (List.map Number.to_Q pays) * 100 - inject_Z (sumCents rows)
      <= n * (1 # 1000000))%Q
  /\ (- (n * ((1 # 2) + (1 # 1000000))) <= inject_Z (sumCents rows) - exactAggregate tz r shifts
      <= n * ((1 # 2) + (1 # 1000000)))%Q
  /\ (- (n * (1 # 1000000)) <= Qsum (List.map Number.to_Q unrounded) * 100 - exactAggregate tz r shifts
      <= n * (1 # 1000000))%Q
  /\ (0 <= exactAggregate tz r shifts <= n * 1000000000)%Q
  /\ 0 <= sumCents rows.
Proof.
  intros Hr Hs. induction Hs as [|s shifts Hh Hs IH]; intros rows pays unrounded n;
    subst rows pays unrounded n.
  - cbn [List.map length Qsum fold_right sumCents exactAggregate].
    change (inject_Z (Z.of_nat 0)) with 0%Q. change (inject_Z 0) with 0%Q.
    split; [constructor |]. split; [constructor |]. split; [constructor |].
    split; [split; lra |]. split; [split; lra |]. split; [split; lra |].
    split; [split; lra | lia].
  - cbv zeta in IH. destruct IH as (F1 & F2 & F3 & S1 & S2 & S3 & S4 & S5).
    destruct (row_bounds tz r s Hr Hh) as (x & y & Ex & Ep & Hc & Hx & Hxc & Hcx & Ey & Hy & Hyx & HX).
    cbv zeta in Ex, Ep, Hc, Hxc, Hcx.
    cbn [List.map length Qsum fold_right sumCents exactAggregate].
    fold (exactAggregate tz r shifts).
    fold (sumCents (List.map (tableRow tz (Number.Finite r)) shifts)).
    rewrite inject_nat_S, inject_Z_plus.
    assert (Tx : Number.to_Q (row_pay (tableRow tz (Number.Finite r) s)) = x)
      by (rewrite Ex; reflexivity).
    assert (Ty : Number.to_Q (unroundedRow tz (Number.Finite r) s) = y)
      by (rewrite Ey; reflexivity).
    rewrite Tx, Ty.
    fold (Qsum (List.map Number.to_Q
                  (List.map row_pay (List.map (tableRow tz (Number.Finite r)) shifts)))).
    fold (Qsum (List.map Number.to_Q (List.map (unroundedRow tz (Number.Finite r)) shifts))).
    set (n := inject_Z (Z.of_nat (length shifts))) in *.
    assert (Hn : (0 <= n)%Q) by (subst n; change 0%Q with (inject_Z 0); rewrite <- Zle_Qle; lia).
    assert (Qc : (0 <= inject_Z (cents (row_pay (tableRow tz (Number.Finite r) s))))%Q)
      by (change 0%Q with (inject_Z 0); rewrite <- Zle_Qle; lia).
    split; [constructor; [exact Ep | exact F1] |].
    split; [constructor; [exists x; split; [exact Ex | exact Hx] | exact F2] |].
    split; [constructor; [exists y; split; [exact Ey | exact Hy] | exact F3] |].
    split; [split; lra |]. split; [split; lra |]. split; [split; lra |].
    split; [split; lra |]. lia.
Qed.

End TotalsFacts.

(** ** Rows *)




(** ** Totals *)

(** C7, as the code has it.  The total pay of a table is the sum, added up
    in binary64 in the order of the rows, of the pay of its rows, each
    already rounded to the cent, and the total hours the sum of the hours of
    its rows.  For up to 100 rows of up to 1000 hours at a rate from 0 to
    10000: every row pays the binary64 value of a whole number of cents, the
    total is within a hundredth of a cent of the sum of these cents (so that
    its own cents are that sum), and the sum differs from the cents of the
    unrounded aggregate rounded once, whether the aggregate is kept in
    binary64 or exactly, by at most half of the number of rows plus one: a
    cent for one or two rows, two cents for three or four. *)
Theorem C7_totals (tz : Z) (hourlyRate : Number.t) (shifts : list Doc) :
  let t := tableOf tz hourlyRate shifts in
  totalPay t = sumPay (tbody t)
  /\ totalHours t = sumHours (tbody t)
  /\ (forall r : Q,
        hourlyRate = Number.Finite r -> (0 <= r <= 10000)%Q ->
        (length shifts <= 100)%nat ->
        Forall (fun s => (computeHours tz (actualStartStr s) (actualEndStr s) <= 1000)%Q)
               shifts ->
        Forall (fun row => row_pay row = Number.of_Q (inject_Z (cents (row_pay row)) / 100))
               (tbody t)
        /\ (exists T,
              totalPay t = Number.Finite T /\
              (Qabs (T - inject_Z (sumCents (tbody t)) / 100) <= 1 # 10000)%Q)
        /\ cents (totalPay t) = sumCents (tbody t)
        /\ roundedAggregate tz hourlyRate shifts
           = Number.of_Q (inject_Z (cents (roundedAggregate tz hourlyRate shifts)) / 100)
        /\ 2 * Z.abs (sumCents (tbody t) - cents (roundedAggregate tz hourlyRate shifts))
           <= Z.of_nat (length shifts) + 1
        /\ 2 * Z.abs (sumCents (tbody t) - Math_round (exactAggregate tz r shifts))
           <= Z.of_nat (length shifts) + 1).
Proof.
  intros t. subst t. unfold tableOf.
  destruct (fold_totals tz hourlyRate shifts emptyTable valid_zero valid_zero) as [Hp Hh].
  cbv zeta in Hp, Hh. cbn [emptyTable totalPay totalHours] in Hp, Hh.
  assert (Hrows : tbody (fold_left (rowStep tz hourlyRate) shifts emptyTable)
                  = List.map (tableRow tz hourlyRate) shifts)
    by (rewrite fold_tbody; reflexivity).
  rewrite Hrows.
  split; [exact Hp |]. split; [exact Hh |].
  intros r -> Hr Hlen Hs.
  destruct (sums_bounds tz r shifts Hr Hs) as (F1 & F2 & F3 & S1 & S2 & S3 & S4 & S5).
  cbv zeta in F1, F2, F3, S1, S2, S3, S4, S5.
  set (rows := List.map (tableRow tz (Number.Finite r)) shifts) in *.
  destruct (inject_nat_bounds (length shifts) 100 Hlen) as [N0 N1].
  change (inject_Z (Z.of_nat 100)) with 100%Q in N1.
  set (n := inject_Z (Z.of_nat (length shifts))) in *.
  (* the total *)
  destruct (fold_add_error (List.map row_pay rows) 0 0) as (T & ET & HT & HTe).
  { change (inject_Z (Z.of_nat 0)) with 0%Q. split; lra. }
  { exact F2. }
  { unfold rows. rewrite !length_map. exact Hlen. }
  rewrite fold_left_map_eq in ET. rewrite <- Hp in ET.
  assert (Ln : length (List.map row_pay rows) = length shifts)
    by (unfold rows; rewrite !length_map; reflexivity).
  rewrite Ln in HTe, HT. fold n in HTe. cbn [Nat.add] in HT. fold n in HT.
  set (C := sumCents rows) in *.
  assert (QC : (0 <= inject_Z C)%Q) by (change 0%Q with (inject_Z 0); rewrite <- Zle_Qle; lia).
  set (P := Qsum (List.map Number.to_Q (List.map row_pay rows))) in *.
  (* the running aggregate *)
  destruct (fold_add_error (List.map (unroundedRow tz (Number.Finite r)) shifts) 0 0)
    as (A & EA & HA & HAe).
  { change (inject_Z (Z.of_nat 0)) with 0%Q. split; lra. }
  { exact F3. }
  { rewrite length_map. exact Hlen. }
  rewrite fold_left_map_eq in EA. fold (unroundedAggregate tz (Number.Finite r) shifts) in EA.
  rewrite length_map in HAe, HA. fold n in HAe. cbn [Nat.add] in HA. fold n in HA.
  set (U := Qsum (List.map Number.to_Q (List.map (unroundedRow tz (Number.Finite r)) shifts))) in *.
  set (X := exactAggregate tz r shifts) in *.
  assert (A0 : (0 <= A * 100)%Q) by lra.
  assert (A1 : (A * 100 < Number.pow2 1023)%Q) by (pow2_num 1023; lra).
  destruct (of_Q_nonneg (A * 100) A0 A1) as (p & Ep & _ & Hp0 & Hpe & _ & _).
  pose proof (Qfloor_le (p + (1 # 2))) as R1.
  pose proof (Qlt_floor (p + (1 # 2))) as R2.
  rewrite inject_Z_plus in R2. change (inject_Z 1) with 1%Q in R2.
  assert (R0 : 0 <= Qfloor (p + (1 # 2))).
  { change 0 with (Qfloor 0). apply Qfloor_resp_le. lra. }
  set (R := Qfloor (p + (1 # 2))) in *.
  assert (ER : roundedAggregate tz (Number.Finite r) shifts = Number.of_Q (inject_Z R / 100)).
  { unfold roundedAggregate. rewrite EA. cbn [Number.mul]. rewrite Ep. reflexivity. }
  pow2_num (-53). pow2_num (-1075).
  assert (RB : R <= 2 ^ 50).
  { assert (L : (inject_Z R < inject_Z (2 ^ 50))%Q).
    { change (inject_Z (2 ^ 50)) with (1125899906842624 # 1)%Q. lra. }
    rewrite <- Zlt_Qlt in L. lia. }
  destruct (cents_Number R (conj R0 RB)) as (_ & _ & _ & _ & ER').
  rewrite <- ER in ER'.
  (* the exact aggregate, rounded once *)
  pose proof (Qfloor_le (X + (1 # 2))) as X1.
  pose proof (Qlt_floor (X + (1 # 2))) as X2.
  rewrite inject_Z_plus in X2. change (inject_Z 1) with 1%Q in X2.
  fold (Math_round X) in X1, X2.
  split; [exact F1 |].
  split.
  { exists T. split; [exact ET |]. apply Qabs_Qle_condition.
    unfold Qdiv. change (/ 100)%Q with (1 # 100)%Q. split; lra. }
  split.
  { rewrite ET. cbn [cents]. unfold Math_round. apply Qfloor_unique. split; lra. }
  split; [rewrite ER'; exact ER |].
  rewrite ER'.
  assert (Zn : inject_Z (Z.of_nat (length shifts)) = n) by reflexivity.
  split.
  - assert (B1 : (inject_Z (2 * (C - R)) < inject_Z (Z.of_nat (length shifts) + 2))%Q).
    { unfold Zminus. rewrite inject_Z_mult, !inject_Z_plus, inject_Z_opp, Zn.
      change (inject_Z 2) with 2%Q. lra. }
    assert (B2 : (inject_Z (- (Z.of_nat (length shifts) + 2)) < inject_Z (2 * (C - R)))%Q).
    { unfold Zminus. rewrite inject_Z_mult, inject_Z_opp, !inject_Z_plus, inject_Z_opp, Zn.
      change (inject_Z 2) with 2%Q. lra. }
    rewrite <- Zlt_Qlt in B1, B2. lia.
  - assert (B1 : (inject_Z (2 * (C - Math_round X)) < inject_Z (Z.of_nat (length shifts) + 2))%Q).
    { unfold Zminus. rewrite inject_Z_mult, !inject_Z_plus, inject_Z_opp, Zn.
      change (inject_Z 2) with 2%Q. lra. }
    assert (B2 : (inject_Z (- (Z.of_nat (length shifts) + 2))
                  < inject_Z (2 * (C - Math_round X)))%Q).
    { unfold Zminus. rewrite inject_Z_mult, inject_Z_opp, !inject_Z_plus, inject_Z_opp, Zn.
      change (inject_Z 2) with 2%Q. lra. }
    rewrite <- Zlt_Qlt in B1, B2. lia.
Qed.

(** C7 on three shifts of 6, 6 and 102 minutes at the rate 7.25: the cents
    of the total are the sum of the cents of the rows, two cents at most
    from the aggregate rounded once. *)
Lemma C7_totals_witness :
  let s (day : string) (out : string) : Doc :=
    <["timeIn" := VStr (String.append day "T09:00")]>
      (<["timeOut" := VStr (String.append day out)]> ∅) in
  let shifts := [s "2025-08-04" "T09:06"; s "2025-08-05" "T09:06"; s "2025-08-06" "T10:42"] in
  let t := tableOf 0 (Number.Finite 7.25) shifts in
  cents (totalPay t) = sumCents (tbody t)
  /\ 2 * Z.abs (sumCents (tbody t) - cents (roundedAggregate 0 (Number.Finite 7.25) shifts)) <= 4.
Proof.
  intros s shifts t.
  destruct (C7_totals 0 (Number.Finite 7.25) shifts) as (_ & _ & H).
  destruct (H 7.25%Q eq_refl) as (_ & _ & Hc & _ & Hb & _).
  - split; vm_compute; discriminate.
  - vm_compute. lia.
  - repeat constructor; vm_compute; discriminate.
  - split; [exact Hc | exact Hb].
Defined.

(** Four shifts of 49 minutes at the rate 10.01: each row pays 8.17, the
    table totals 32.68, and the unrounded aggregate, in binary64 or exact,
    rounds to 32.70, two cents away. *)
Lemma C7_two_cents_apart :
  let s (day : string) : Doc :=
    <["timeIn" := VStr (String.append day "T09:00")]>
      (<["timeOut" := VStr (String.append day "T09:49")]> ∅) in
  let shifts := [s "2025-08-04"; s "2025-08-05"; s "2025-08-06"; s "2025-08-07"] in
  let rate := Number.of_Q 10.01 in
  let t := tableOf 0 rate shifts in
  Forall (fun row => row_pay row = Number.of_Q 8.17) (tbody t)
  /\ totalPay t = Number.of_Q 32.68
  /\ roundedAggregate 0 rate shifts = Number.of_Q 32.70
  /\ Math_round (exactAggregate 0 (Number.to_Q rate) shifts) = 3270
  /\ ~ (Qabs (Number.to_Q (totalPay t) - Number.to_Q (roundedAggregate 0 rate shifts))
        <= 1 # 100)%Q.
Proof.
  intros s shifts rate t.
  split; [repeat constructor; vm_compute; reflexivity |].
  split; [vm_compute; reflexivity |]. split; [vm_compute; reflexivity |].
  split; [vm_compute; reflexivity |].
  intros H. vm_compute in H. apply H. reflexivity.
Qed.

(** ** Punch times *)

(** Evaluates the comparisons of two numerals in the goal. *)
Ltac eval_tests :=
  repeat match goal with
    | |- context [Z.eqb ?a ?b] =>
        let v := eval vm_compute in (Z.eqb a b) in
        match v with
        | true => change (Z.eqb a b) with true
        | false => change (Z.eqb a b) with false
        end
    | |- context [Z.leb ?a ?b] =>
        let v := eval vm_compute in (Z.leb a b) in
        match v with
        | true => change (Z.leb a b) with true
        | false => change (Z.leb a b) with false
        end
    | |- context [Z.ltb ?a ?b] =>
        let v := eval vm_compute in (Z.ltb a b) in
        match v with
        | true => change (Z.ltb a b) with true
        | false => change (Z.ltb a b) with false
        end
    end;
  cbv beta iota; cbn [orb andb negb].

Section PunchTimeFacts.

(** The last day of a year that starts in March is 29 February. *)
Lemma leap_day (doe era : Z) :
  0 <= doe < 146097 ->
  let yoe := (doe - doe / 1460 + doe / 36524 - doe / 146096) / 365 in
  let doy := doe - (365 * yoe + yoe / 4 - yoe / 100) in
  doy = 365 -> isLeapYear (yoe + era * 400 + 1) = true.
Proof.
  intros H yoe doy Hd. unfold isLeapYear.
  assert (E4 : (yoe + era * 400 + 1) mod 4 = (yoe + 1) mod 4).
  { replace (yoe + era * 400 + 1) with (yoe + 1 + (era * 100) * 4) by lia. apply Z.mod_add. lia. }
  assert (E100 : (yoe + era * 400 + 1) mod 100 = (yoe + 1) mod 100).
  { replace (yoe + era * 400 + 1) with (yoe + 1 + (era * 4) * 100) by lia. apply Z.mod_add. lia. }
  assert (E400 : (yoe + era * 400 + 1) mod 400 = (yoe + 1) mod 400).
  { replace (yoe + era * 400 + 1) with (yoe + 1 + era * 400) by lia. apply Z.mod_add. lia. }
  rewrite E4, E100, E400.
  assert (K : (yoe + 1) mod 4 = 0 /\ ((yoe + 1) mod 100 <> 0 \/ (yoe + 1) mod 400 = 0)).
  { subst doy yoe. Z.div_mod_to_equations. lia. }
  destruct K as [K4 K]. rewrite K4. cbn [Z.eqb andb].
  destruct K as [K | K].
  - apply Z.eqb_neq in K. rewrite K. reflexivity.
  - rewrite K. cbn. apply orb_true_r.
Qed.

(** The day of the month of a calendar date is a day of its month. *)
Lemma civil_day_bounds (z : Z) :
  let '(y, m, d) := civil_from_days z in 1 <= d <= DaysInMonth y m.
Proof.
  unfold civil_from_days.
  set (z' := z + 719468).
  set (era := z' / 146097).
  set (doe := z' mod 146097).
  assert (Hdoe : 0 <= doe < 146097) by (apply Z.mod_pos_bound; lia).
  clearbody doe era. clear z z'.
  destruct (era_bounds doe Hdoe) as [Hyoe Hdoy].
  pose proof (leap_day doe era Hdoe) as Hleap. cbv zeta in Hleap.
  set (yoe := (doe - doe / 1460 + doe / 36524 - doe / 146096) / 365) in *.
  set (doy := doe - (365 * yoe + yoe / 4 - yoe / 100)) in *.
  set (mp := (5 * doy + 2) / 153).
  assert (Hmp : 0 <= mp <= 11).
  { subst mp. split.
    - apply Z.div_pos; lia.
    - apply Z.lt_succ_r. apply Z.div_lt_upper_bound; lia. }
  assert (Hd : 153 * mp <= 5 * doy + 2 < 153 * mp + 153).
  { subst mp. pose proof (Z.div_mod (5 * doy + 2) 153).
    pose proof (Z.mod_pos_bound (5 * doy + 2) 153). lia. }
  clearbody mp doy yoe.
  unfold DaysInMonth.
  assert (C : mp = 0 \/ mp = 1 \/ mp = 2 \/ mp = 3 \/ mp = 4 \/ mp = 5 \/ mp = 6
              \/ mp = 7 \/ mp = 8 \/ mp = 9 \/ mp = 10 \/ mp = 11) by lia.
  destruct C as [C|[C|[C|[C|[C|[C|[C|[C|[C|[C|[C|C]]]]]]]]]]]; subst mp;
    eval_tests; try (Z.div_mod_to_equations; lia).
  destruct (Z.eq_dec doy 365) as [E | E].
  - rewrite (Hleap E). Z.div_mod_to_equations. lia.
  - destruct (isLeapYear _); Z.div_mod_to_equations; lia.
Qed.

Lemma digit_val_char (n : Z) : 0 <= n <= 9 -> digit_val (digit_char n) = Some n.
Proof.
  intros H. rewrite <- (Z2Nat.id n) by lia.
  assert (Hk : (Z.to_nat n < 10)%nat) by lia.
  clear H. generalize dependent (Z.to_nat n). clear n. intros k Hk.
  do 10 (destruct k as [|k]; [reflexivity |]). lia.
Qed.

Lemma num2_digits (a b : Z) :
  0 <= a <= 9 -> 0 <= b <= 9 -> num2 (digit_char a) (digit_char b) = Some (10 * a + b).
Proof. intros Ha Hb. unfold num2. rewrite !digit_val_char by assumption. reflexivity. Qed.

Lemma mod10_bounds (z : Z) : 0 <= z mod 10 <= 9.
Proof. pose proof (Z.mod_pos_bound z 10). lia. Qed.

(** Two digits read back. *)
Lemma num2_pad (z : Z) :
  0 <= z <= 99 ->
  num2 (digit_char ((z / 10) mod 10)) (digit_char (z mod 10)) = Some z.
Proof.
  intros H. rewrite num2_digits by apply mod10_bounds. f_equal.
  Z.div_mod_to_equations. lia.
Qed.

(** Four digits read back. *)
Lemma num4_pad (z : Z) :
  0 <= z <= 9999 ->
  num4 (digit_char ((z / 10 / 10 / 10) mod 10)) (digit_char ((z / 10 / 10) mod 10))
       (digit_char ((z / 10) mod 10)) (digit_char (z mod 10)) = Some z.
Proof.
  intros H. unfold num4. rewrite !num2_digits by apply mod10_bounds. f_equal.
  Z.div_mod_to_equations. lia.
Qed.

(** The punch time of a clock reading: its UTC date, hour and minute. *)
Lemma isoMinutes_fields (t : Z) :
  0 <= YearFromTime t <= 9999 ->
  isoMinutes t
  = (pad 4 (YearFromTime t) ++ "-" ++ pad 2 (MonthFromTime t + 1) ++ "-"
       ++ pad 2 (DateFromTime t) ++ "T" ++ pad 2 (HourFromTime t) ++ ":"
       ++ pad 2 (MinFromTime t))%string.
Proof.
  intros H. unfold isoMinutes, toISOString, year_string.
  replace ((0 <=? YearFromTime t) && (YearFromTime t <=? 9999)) with true
    by (symmetry; apply andb_true_intro; split; apply Z.leb_le; lia).
  generalize (YearFromTime t) (MonthFromTime t + 1) (DateFromTime t) (HourFromTime t)
             (MinFromTime t) (SecFromTime t) (msFromTime t).
  intros y m d h mi s ms.
  cbv [pad digits String.append String.substring]. reflexivity.
Qed.

(** The time value of a whole minute, from its day, hour and minute. *)
Lemma minute_of_time (t : Z) :
  MakeDate (Day t) (MakeTime (HourFromTime t) (MinFromTime t) 0 0) = t - t mod 60000.
Proof.
  unfold MakeDate, MakeTime, Day, HourFromTime, MinFromTime, msPerDay, msPerHour, msPerMinute.
  Z.div_mod_to_equations. lia.
Qed.

Variable tz : Z.

(** Reading a punch time back: [new Date(iso)] takes the UTC fields for
    local ones, so the date it makes is the minute of the punch moved by
    the offset of the time zone. *)
Lemma Date_parse_isoMinutes (t : Z) :
  0 <= YearFromTime t <= 9999 ->
  Date_parse tz (isoMinutes t) = Some (t - t mod 60000 + tz * 60000).
Proof.
  intros HY. rewrite (isoMinutes_fields t HY).
  pose proof (civil_day_bounds (Day t)) as HD.
  pose proof (civil_month_bounds (Day t)) as HM.
  pose proof (days_from_civil_from_days (Day t)) as HR.
  pose proof (minute_of_time t) as HT.
  unfold YearFromTime, MonthFromTime, DateFromTime in *.
  destruct (civil_from_days (Day t)) as [[y m] d]. cbn [fst snd] in *.
  replace (m - 1 + 1) with m by lia.
  assert (Hh : 0 <= HourFromTime t <= 23).
  { unfold HourFromTime. pose proof (Z.mod_pos_bound (t / msPerHour) 24). lia. }
  assert (Hmi : 0 <= MinFromTime t <= 59).
  { unfold MinFromTime. pose proof (Z.mod_pos_bound (t / msPerMinute) 60). lia. }
  assert (Hd : 1 <= d <= 31).
  { unfold DaysInMonth in HD.
    destruct (m =? 2); [destruct (isLeapYear y) |];
      [| | destruct ((m =? 4) || (m =? 6) || (m =? 9) || (m =? 11))]; lia. }
  cbv [pad digits String.append Date_parse parse_time].
  unfold parse_ymd. rewrite (num4_pad y), !num2_pad by lia.
  replace ((1 <=? m) && (m <=? 12) && (1 <=? d) && (d <=? DaysInMonth y m)) with true.
  2:{ symmetry. repeat (apply andb_true_intro; split); apply Z.leb_le; lia. }
  unfold parse_hm. rewrite !num2_pad by lia.
  replace ((HourFromTime t <=? 23) && (MinFromTime t <=? 59)) with true.
  2:{ symmetry. apply andb_true_intro; split; apply Z.leb_le; lia. }
  rewrite HR, HT. reflexivity.
Qed.

End PunchTimeFacts.

(** ** The store *)

Section StoreFacts.

(** Unfolds a function on the database down to the store. *)
Ltac run :=
  unfold bind, ret, throw, lift, alert, collection, doc_get, doc_set, doc_update,
    doc_delete, where_get, data_of;
  cbn [snap_exists snap_data snap_id fst snd].

Lemma collectionData_Some (w : World) (c id : string) (d : Doc) :
  collectionData w c !! id = Some d ->
  exists m, collections w !! c = Some m /\ m !! id = Some d.
Proof.
  unfold collectionData. destruct (collections w !! c) as [m|]; cbn.
  - intros H. exists m. split; [reflexivity | exact H].
  - rewrite lookup_empty. discriminate.
Qed.

Lemma collectionData_set (name c : string) (m : CollectionData) (w : World) :
  collectionData (set_collectionData name m w) c
  = if decide (name = c) then m else collectionData w c.
Proof.
  unfold collectionData, set_collectionData. cbn [collections].
  rewrite lookup_insert. destruct (decide (name = c)); reflexivity.
Qed.

(** [db.collection(name)] leaves every collection with the documents it
    had; it changes nothing at all when the collection is there. *)
Lemma collection_run (name : string) (w : World) :
  exists w',
    collection name w = (Ok name, w') /\
    alerts w' = alerts w /\
    (forall c, collectionData w' c = collectionData w c) /\
    (is_Some (collections w !! name) -> w' = w) /\
    (forall m, set_collectionData name m w' = set_collectionData name m w).
Proof.
  unfold collection. destruct (collections w !! name) as [m|] eqn:E.
  - exists w. repeat split; reflexivity.
  - exists (set_collectionData name ∅ w). split; [reflexivity |].
    split; [reflexivity |]. split; [| split].
    + intros c. rewrite collectionData_set. destruct (decide (name = c)) as [<- |]; [| reflexivity].
      unfold collectionData. rewrite E. reflexivity.
    + intros [x Hx]. discriminate Hx.
    + intros m'. unfold set_collectionData. cbn [collections alerts].
      rewrite insert_insert_eq. reflexivity.
Qed.

Lemma year_string_nonempty (y : Z) : year_string y <> "".
Proof.
  unfold year_string. destruct ((0 <=? y) && (y <=? 9999)).
  - unfold pad. cbn [digits]. discriminate.
  - destruct (y <? 0); discriminate.
Qed.

(** The time to the minute that a punch records is never empty. *)
Lemma isoMinutes_truthy (now : Z) : truthy (VStr (isoMinutes now)) = true.
Proof.
  unfold isoMinutes, toISOString.
  pose proof (year_string_nonempty (YearFromTime now)) as H.
  destruct (year_string (YearFromTime now)) as [|c r]; [contradiction |].
  reflexivity.
Qed.

Variable tz : Z.

(** What [punchIn] does, by the shift document of the day. *)
Lemma punchIn_run (username : string) (clock0 clock1 : Z) (w : World) :
  let date := isoDate (Day (clock0 - tz * 60000)) in
  let docId := shiftId username date in
  let shift : Doc :=
    <["username" := VStr username]>
      (<["date" := VStr date]>
         (<["timeIn" := VStr (isoMinutes clock1)]>
            (<["timeOut" := VStr ""]>
               (<["adjTimeIn" := VStr ""]> (<["adjTimeOut" := VStr ""]> ∅))))) in
  let punched :=
    set_collectionData "shifts" (<[docId := shift]> (collectionData w "shifts")) w in
  punchIn tz username clock0 clock1 w
  = match collectionData w "shifts" !! docId with
    | Some data =>
        if truthy (field data "timeIn")
        then (Ok tt, mkWorld (collections w) (alerts w ++ ["You have already punched in today."]))
        else (Ok tt, punched)
    | None => (Ok tt, punched)
    end.
Proof.
  intros date docId shift punched. subst punched shift docId date.
  unfold punchIn. rewrite getISODateString_day. unfold bind at 1, lift.
  generalize (isoDate (Day (clock0 - tz * 60000))). intros date.
  generalize (shiftId username date). intros docId.
  destruct (collection_run "shifts" w) as (w' & Hc & Ha & Hd & Hsame & Hset).
  unfold bind at 1. rewrite Hc.
  run. rewrite !Hd.
  destruct (collectionData w "shifts" !! docId) as [data|] eqn:E.
  - destruct (collectionData_Some _ _ _ _ E) as (m & Hm & _).
    rewrite (Hsame (ex_intro _ m Hm)).
    rewrite bool_decide_eq_true_2 by eauto. unfold ret. cbv beta iota.
    destruct (truthy (field data "timeIn")); reflexivity.
  - rewrite bool_decide_eq_false_2 by (intros [x Hx]; discriminate Hx). cbv beta iota.
    rewrite Hset, ?Hd. reflexivity.
Qed.

(** What [punchOut] does, by the shift document of the day. *)
Lemma punchOut_run (username : string) (clock0 clock1 : Z) (w : World) :
  let date := isoDate (Day (clock0 - tz * 60000)) in
  let docId := shiftId username date in
  punchOut tz username clock0 clock1 w
  = match collectionData w "shifts" !! docId with
    | Some data =>
        if negb (truthy (field data "timeIn"))
        then (Ok tt, mkWorld (collections w) (alerts w ++ ["You have not punched in yet today."]))
        else if truthy (field data "timeOut")
        then (Ok tt, mkWorld (collections w) (alerts w ++ ["You have already punched out today."]))
        else (Ok tt, set_collectionData "shifts"
                       (<[docId := spread data (<["timeOut" := VStr (isoMinutes clock1)]> ∅)]>
                          (collectionData w "shifts")) w)
    | None =>
        (Ok tt, mkWorld (collections (snd (collection "shifts" w)))
                  (alerts w ++ ["You have not punched in yet today."]))
    end.
Proof.
  intros date docId. subst docId date.
  unfold punchOut. rewrite getISODateString_day. unfold bind at 1, lift.
  generalize (shiftId username (isoDate (Day (clock0 - tz * 60000)))). intros docId.
  destruct (collection_run "shifts" w) as (w' & Hc & Ha & Hd & Hsame & Hset).
  unfold bind at 1. rewrite Hc.
  run. rewrite !Hd.
  destruct (collectionData w "shifts" !! docId) as [data|] eqn:E.
  - destruct (collectionData_Some _ _ _ _ E) as (m & Hm & _).
    rewrite (Hsame (ex_intro _ m Hm)).
    rewrite bool_decide_eq_true_2 by eauto. unfold ret. cbv beta iota. cbn [negb].
    destruct (truthy (field data "timeIn")); cbn [negb]; [| reflexivity].
    destruct (truthy (field data "timeOut")); [reflexivity |].
    rewrite E. reflexivity.
  - rewrite bool_decide_eq_false_2 by (intros [x Hx]; discriminate Hx). cbn [negb].
    rewrite Ha. reflexivity.
Qed.

End StoreFacts.

(** ** Punches *)

Section PunchFacts.

Variable tz : Z.

Lemma getISODateString_inv (clock : Z) (date : string) :
  getISODateString tz (Some clock) = Ok date -> date = isoDate (Day (clock - tz * 60000)).
Proof. rewrite getISODateString_day. intros H. injection H as <-. reflexivity. Qed.

(** After [punchIn] returns, the shift of the day has its [timeIn]. *)
Lemma punchIn_punched (username date : string) (clock0 clock1 : Z) (w : World) :
  getISODateString tz (Some clock0) = Ok date ->
  exists data,
    collectionData (snd (punchIn tz username clock0 clock1 w)) "shifts"
      !! shiftId username date = Some data
    /\ truthy (field data "timeIn") = true.
Proof.
  intros Hd. apply getISODateString_inv in Hd. subst date.
  rewrite punchIn_run. cbv zeta.
  set (docId := shiftId username _).
  destruct (collectionData w "shifts" !! docId) as [data|] eqn:E.
  - destruct (truthy (field data "timeIn")) eqn:T; cbn [snd].
    + exists data. split; [exact E | exact T].
    + eexists. rewrite collectionData_set. cbn [decide]. rewrite decide_True by reflexivity.
      rewrite lookup_insert_eq. split; [reflexivity |].
      rewrite !field_insert. repeat case_decide; try congruence.
      apply isoMinutes_truthy.
  - cbn [snd]. eexists. rewrite collectionData_set. rewrite decide_True by reflexivity.
    rewrite lookup_insert_eq. split; [reflexivity |].
    rewrite !field_insert. repeat case_decide; try congruence.
    apply isoMinutes_truthy.
Qed.

End PunchFacts.

(** C4. When the shift record of the user and day exists with its [timeIn]
    set, [punchIn] reports "You have already punched in today." and leaves
    every collection of the store as it was; so does, always, the second of
    two calls of [punchIn] for the same user on the same day. *)
Theorem C4_punchIn_twice (tz : Z) (username date : string) (clock0 clock1 : Z) (w : World) :
  getISODateString tz (Some clock0) = Ok date ->
  (forall data,
      collectionData w "shifts" !! shiftId username date = Some data ->
      truthy (field data "timeIn") = true ->
      punchIn tz username clock0 clock1 w
      = (Ok tt, mkWorld (collections w) (alerts w ++ ["You have already punched in today."])))
  /\ (forall w0 c0 c1,
        getISODateString tz (Some c0) = Ok date ->
        w = snd (punchIn tz username c0 c1 w0) ->
        punchIn tz username clock0 clock1 w
        = (Ok tt, mkWorld (collections w) (alerts w ++ ["You have already punched in today."]))).
Proof.
  intros Hd.
  assert (Hfail : forall data,
             collectionData w "shifts" !! shiftId username date = Some data ->
             truthy (field data "timeIn") = true ->
             punchIn tz username clock0 clock1 w
             = (Ok tt, mkWorld (collections w)
                         (alerts w ++ ["You have already punched in today."]))).
  { intros data Hdata Hin. rewrite punchIn_run. cbv zeta.
    rewrite <- (getISODateString_inv tz clock0 date Hd), Hdata, Hin. reflexivity. }
  split; [exact Hfail |].
  intros w0 c0 c1 Hd0 Hw.
  destruct (punchIn_punched tz username date c0 c1 w0 Hd0) as (data & Hdata & Hin).
  rewrite <- Hw in Hdata. exact (Hfail data Hdata Hin).
Qed.

(** C4 on an empty store: the second punch of the day is turned down. *)
Lemma C4_punchIn_twice_witness :
  let w1 := snd (punchIn 300 "alice" 1754143200000 1754143260000 (mkWorld ∅ [])) in
  punchIn 300 "alice" 1754150000000 1754150000000 w1
  = (Ok tt, mkWorld (collections w1) ["You have already punched in today."]).
Proof.
  intros w1.
  destruct (C4_punchIn_twice 300 "alice" "2025-08-02" 1754150000000 1754150000000 w1 eq_refl)
    as [_ H].
  exact (H (mkWorld ∅ []) 1754143200000 1754143260000 eq_refl eq_refl).
Defined.

(** C5, where the code departs from it.  [punchOut] succeeds exactly when
    the shift record of the user and day has its [timeIn] set and its
    [timeOut] unset.  With no record, or a record without [timeIn], it
    reports "You have not punched in yet today."; with [timeOut] already
    set it reports "You have already punched out today.".  Both failures
    leave every collection with the documents it had, and the store itself
    untouched when the shifts collection is there.  On success it writes
    into [timeOut] the UTC date, hour and minute of the clock, with no mark
    of the zone: read as a UTC time the string is the current time to the
    minute, but the application reads it, as every string of this form, as
    a local time, [getTimezoneOffset()] minutes after the punch, and shows
    the UTC hour and minute for the local ones.  The time is the current
    time only on a device whose offset is 0. *)
Theorem C5_punchOut (tz : Z) (username date : string) (clock0 clock1 : Z) (w : World) :
  getISODateString tz (Some clock0) = Ok date ->
  let docId := shiftId username date in
  let stored := collectionData w "shifts" !! docId in
  let r := punchOut tz username clock0 clock1 w in
  (forall data,
      stored = Some data ->
      truthy (field data "timeIn") = true -> truthy (field data "timeOut") = false ->
      fst r = Ok tt /\ alerts (snd r) = alerts w /\
      exists data',
        collectionData (snd r) "shifts" !! docId = Some data' /\
        field data' "timeOut" = VStr (isoMinutes clock1))
  /\ (stored = None \/ (exists data, stored = Some data /\ truthy (field data "timeIn") = false) ->
      fst r = Ok tt /\
      alerts (snd r) = (alerts w ++ ["You have not punched in yet today."])%list /\
      (forall c, collectionData (snd r) c = collectionData w c) /\
      (is_Some (collections w !! "shifts") -> collections (snd r) = collections w))
  /\ (forall data,
        stored = Some data ->
        truthy (field data "timeIn") = true -> truthy (field data "timeOut") = true ->
        r = (Ok tt, mkWorld (collections w) (alerts w ++ ["You have already punched out today."])))
  /\ (alerts (snd r) = alerts w <->
      exists data,
        stored = Some data /\
        truthy (field data "timeIn") = true /\ truthy (field data "timeOut") = false)
  /\ (0 <= YearFromTime clock1 <= 9999 ->
      Date_new 0 (VStr (isoMinutes clock1)) = Some (clock1 - clock1 mod 60000)
      /\ Date_new tz (VStr (isoMinutes clock1))
         = Some (clock1 - clock1 mod 60000 + tz * 60000)
      /\ formatTimeInput tz (VStr (isoMinutes clock1))
         = String.append (pad 2 (HourFromTime clock1))
             (String.append ":" (pad 2 (MinFromTime clock1)))).
Proof.
  intros Hd docId stored r.
  apply getISODateString_inv in Hd.
  assert (Hr : r = match stored with
                   | Some data =>
                       if negb (truthy (field data "timeIn"))
                       then (Ok tt, mkWorld (collections w)
                                      (alerts w ++ ["You have not punched in yet today."]))
                       else if truthy (field data "timeOut")
                       then (Ok tt, mkWorld (collections w)
                                      (alerts w ++ ["You have already punched out today."]))
                       else (Ok tt, set_collectionData "shifts"
                                      (<[docId := spread data
                                                    (<["timeOut" := VStr (isoMinutes clock1)]> ∅)]>
                                         (collectionData w "shifts")) w)
                   | None =>
                       (Ok tt, mkWorld (collections (snd (collection "shifts" w)))
                                 (alerts w ++ ["You have not punched in yet today."]))
                   end).
  { subst r stored docId. rewrite punchOut_run. cbv zeta. rewrite <- Hd. reflexivity. }
  assert (Hne : forall (l : list string) (m : string), (l ++ [m])%list <> l).
  { intros l m H. apply (f_equal (@length string)) in H.
    rewrite length_app in H. cbn in H. lia. }
  clearbody r stored. subst r.
  split; [| split; [| split; [| split]]].
  - intros data -> Hin Hout. rewrite Hin, Hout. cbn [negb fst snd].
    split; [reflexivity |]. split; [reflexivity |].
    eexists. rewrite collectionData_set, decide_True by reflexivity.
    rewrite lookup_insert_eq. split; [reflexivity |].
    rewrite field_spread_single, decide_True by reflexivity. reflexivity.
  - intros [-> | (data & -> & Hin)].
    + cbn [fst snd alerts collections].
      destruct (collection_run "shifts" w) as (w' & Hc & Ha & Hcd & Hsame & _).
      rewrite Hc. cbn [snd]. repeat split.
      * intros c. rewrite <- (Hcd c). reflexivity.
      * intros Hs. rewrite (Hsame Hs). reflexivity.
    + rewrite Hin. cbn [negb fst snd alerts collections]. repeat split.
  - intros data -> Hin Hout. rewrite Hin, Hout. reflexivity.
  - split.
    + destruct stored as [data|].
      * destruct (truthy (field data "timeIn")) eqn:Hin; cbn [negb].
        -- destruct (truthy (field data "timeOut")) eqn:Hout; cbn [snd alerts].
           ++ intros H. destruct (Hne _ _ H).
           ++ intros _. exists data. repeat split; assumption.
        -- cbn [snd alerts]. intros H. destruct (Hne _ _ H).
      * cbn [snd alerts]. intros H. destruct (Hne _ _ H).
    + intros (data & -> & Hin & Hout). rewrite Hin, Hout. reflexivity.
  - intros HY.
    assert (Hl : Date_new tz (VStr (isoMinutes clock1))
                 = Some (clock1 - clock1 mod 60000 + tz * 60000))
      by apply (Date_parse_isoMinutes tz clock1 HY).
    split.
    { cbn [Date_new]. rewrite (Date_parse_isoMinutes 0 clock1 HY). f_equal. lia. }
    split; [exact Hl |].
    unfold formatTimeInput. rewrite isoMinutes_truthy, Hl. cbn [negb].
    unfold getHours, getMinutes, LocalTime, HourFromTime, MinFromTime, msPerHour, msPerMinute.
    replace (clock1 - clock1 mod 60000 + tz * 60000 - tz * 60000)
      with (clock1 - clock1 mod 60000) by lia.
    replace ((clock1 - clock1 mod 60000) / 3600000) with (clock1 / 3600000)
      by (Z.div_mod_to_equations; lia).
    replace ((clock1 - clock1 mod 60000) / 60000) with (clock1 / 60000)
      by (Z.div_mod_to_equations; lia).
    reflexivity.
Qed.

(** C5 on a device five hours west of Greenwich, with one open shift: the
    punch out at 17:15 local time on 2025-08-02 succeeds and is recorded as
    22:15, which the application reads as 22:15 local time, five hours
    after the punch; the second punch out is turned down. *)
Lemma C5_punchOut_witness :
  let data : Doc :=
    <["username" := VStr "alice"]>
      (<["date" := VStr "2025-08-02"]>
         (<["timeIn" := VStr "2025-08-02T14:01"]>
            (<["timeOut" := VStr ""]>
               (<["adjTimeIn" := VStr ""]> (<["adjTimeOut" := VStr ""]> ∅))))) in
  let w1 := mkWorld (<["shifts" := <["alice_2025-08-02" := data]> ∅]> ∅) [] in
  let r := punchOut 300 "alice" 1754172000000 1754172900000 w1 in
  alerts (snd r) = []
  /\ punchOut 300 "alice" 1754172000000 1754172960000 (snd r)
     = (Ok tt, mkWorld (collections (snd r)) ["You have already punched out today."])
  /\ (getHours 300 1754172900000 = 17 /\ getMinutes 300 1754172900000 = 15)
  /\ (exists data',
        collectionData (snd r) "shifts" !! "alice_2025-08-02" = Some data' /\
        field data' "timeOut" = VStr "2025-08-02T22:15")
  /\ Date_new 300 (VStr "2025-08-02T22:15") = Some (1754172900000 + 5 * 3600000)
  /\ formatTimeInput 300 (VStr "2025-08-02T22:15") = "22:15".
Proof.
  intros data w1 r.
  pose proof (C5_punchOut 300 "alice" "2025-08-02" 1754172000000 1754172900000 w1 eq_refl)
    as (Hok & _ & _ & [_ H] & Hread).
  split.
  { apply H. exists data. split; [| split]; vm_compute; exact eq_refl. }
  split.
  { destruct (C5_punchOut 300 "alice" "2025-08-02" 1754172000000 1754172960000 (snd r) eq_refl)
      as (_ & _ & H2 & _).
    apply (H2 (<["timeOut" := VStr "2025-08-02T22:15"]> data)); vm_compute; exact eq_refl. }
  split; [split; vm_compute; exact eq_refl |].
  split.
  { destruct (Hok data) as (_ & _ & data' & Hd' & Ht); try (vm_compute; exact eq_refl).
    exists data'. split; [exact Hd' | exact Ht]. }
  destruct Hread as (_ & Hl & Hf); [vm_compute; split; discriminate |].
  split; [exact Hl | exact Hf].
Defined.

(** C10. A successful [punchOut] writes [timeOut] and nothing else: the
    other fields of the shift record keep their values, every other
    document of every collection is as it was, and no message is shown. *)
Theorem C10_punchOut_frame (tz : Z) (username date : string) (clock0 clock1 : Z)
    (w : World) (data : Doc) :
  getISODateString tz (Some clock0) = Ok date ->
  collectionData w "shifts" !! shiftId username date = Some data ->
  truthy (field data "timeIn") = true ->
  truthy (field data "timeOut") = false ->
  let w' := snd (punchOut tz username clock0 clock1 w) in
  (exists data',
      collectionData w' "shifts" !! shiftId username date = Some data' /\
      data' !! "timeOut" = Some (VStr (isoMinutes clock1)) /\
      (forall f, f <> "timeOut" -> data' !! f = data !! f))
  /\ (forall id, id <> shiftId username date ->
        collectionData w' "shifts" !! id = collectionData w "shifts" !! id)
  /\ (forall c, c <> "shifts" -> collections w' !! c = collections w !! c)
  /\ alerts w' = alerts w.
Proof.
  intros Hd Hdata Hin Hout w'. subst w'.
  apply getISODateString_inv in Hd.
  rewrite punchOut_run. cbv zeta. rewrite <- Hd, Hdata, Hin, Hout. cbn [negb snd].
  split; [| split; [| split]].
  - eexists. rewrite collectionData_set, decide_True by reflexivity.
    rewrite lookup_insert_eq. split; [reflexivity |]. unfold spread. split.
    + rewrite lookup_union, lookup_insert_eq. destruct (data !! "timeOut"); reflexivity.
    + intros f Hf. rewrite lookup_union, lookup_insert_ne, lookup_empty by congruence.
      destruct (data !! f); reflexivity.
  - intros id Hid. rewrite collectionData_set, decide_True by reflexivity.
    rewrite lookup_insert_ne by congruence. reflexivity.
  - intros c Hc. unfold set_collectionData. cbn [collections].
    rewrite lookup_insert_ne by congruence. reflexivity.
  - reflexivity.
Qed.

(** C10 on a store with a user and an open, adjusted shift. *)
Lemma C10_punchOut_frame_witness :
  let data : Doc :=
    <["username" := VStr "alice"]>
      (<["date" := VStr "2025-08-02"]>
         (<["timeIn" := VStr "2025-08-02T14:01"]>
            (<["timeOut" := VStr ""]>
               (<["adjTimeIn" := VStr "2025-08-02T14:00"]> (<["adjTimeOut" := VStr ""]> ∅))))) in
  let users : CollectionData := <["alice" := <["hourlyRate" := VNum 20]> ∅]> ∅ in
  let w := mkWorld (<["users" := users]> (<["shifts" := <["alice_2025-08-02" := data]> ∅]> ∅)) [] in
  let w' := snd (punchOut 300 "alice" 1754172000000 1754172900000 w) in
  collections w' !! "users" = Some users /\ alerts w' = [].
Proof.
  intros data users w w'.
  assert (Hdata : collectionData w "shifts" !! shiftId "alice" "2025-08-02" = Some data)
    by (vm_compute; exact eq_refl).
  destruct (C10_punchOut_frame 300 "alice" "2025-08-02" 1754172000000 1754172900000 w data
              eq_refl Hdata eq_refl eq_refl) as (_ & _ & Hc & Ha).
  split; [| exact Ha].
  transitivity (collections w !! "users");
    [apply (Hc "users"); discriminate | vm_compute; exact eq_refl].
Defined.

(** ** Employees *)

Section EmployeeFacts.

Lemma filter_none {A} (f : A -> bool) (l : list A) :
  (forall x, In x l -> f x = false) -> List.filter f l = [].
Proof.
  induction l as [|a l IH]; intros H; cbn [List.filter]; [reflexivity |].
  rewrite (H a) by (left; reflexivity). apply IH. intros x Hx. apply H. right. exact Hx.
Qed.

(** The documents [where(f, "==", v)] finds. *)
Lemma where_get_run (c f : string) (v : value) (w : World) :
  exists docs,
    where_get c f "==" v w = (Ok docs, w) /\
    forall id d, In (id, d) docs <->
                 collectionData w c !! id = Some d /\ strict_eq (field d f) v = true.
Proof.
  unfold where_get. eexists. split; [reflexivity |].
  intros id d. rewrite filter_In. cbn [snd String.eqb Ascii.eqb Bool.eqb].
  rewrite <- list_elem_of_In, elem_of_map_to_list. reflexivity.
Qed.

(** The loop of [deleteEmployee]: the listed documents go, the others
    stay. *)
Lemma delete_loop (docs : list (string * Doc)) : forall w : World,
  exists w',
    for_of docs (fun doc => let* c := collection "shifts" in doc_delete c (fst doc)) w
    = (Ok tt, w') /\
    alerts w' = alerts w /\
    (forall c, c <> "shifts" -> collectionData w' c = collectionData w c) /\
    (forall id, collectionData w' "shifts" !! id
                = if bool_decide (id ∈ List.map fst docs) then None
                  else collectionData w "shifts" !! id).
Proof.
  induction docs as [|[i d] docs IH]; intros w; cbn [for_of List.map fst].
  - exists w. repeat split; reflexivity.
  - destruct (collection_run "shifts" w) as (w1 & Hc & Ha & Hcd & _ & _).
    unfold bind at 1. unfold bind at 1. rewrite Hc. unfold doc_delete at 1.
    destruct (IH (set_collectionData "shifts" (delete i (collectionData w1 "shifts")) w1))
      as (w' & Hrun & Ha' & Hother & Hsh).
    exists w'. split; [exact Hrun |]. split; [rewrite Ha'; exact Ha |]. split.
    + intros c Hne. rewrite (Hother c Hne), collectionData_set.
      rewrite decide_False by congruence. apply Hcd.
    + intros id. rewrite Hsh, collectionData_set, decide_True by reflexivity.
      rewrite Hcd.
      destruct (decide (i = id)) as [-> | Hne].
      * rewrite lookup_delete_eq.
        rewrite (bool_decide_eq_true_2 (id ∈ id :: _)) by apply list_elem_of_here.
        destruct (bool_decide _); reflexivity.
      * rewrite lookup_delete_ne by exact Hne.
        destruct (bool_decide (id ∈ List.map fst docs)) eqn:E.
        -- apply bool_decide_eq_true_1 in E.
           rewrite bool_decide_eq_true_2 by (apply list_elem_of_further; exact E).
           reflexivity.
        -- apply bool_decide_eq_false_1 in E.
           rewrite bool_decide_eq_false_2; [reflexivity |].
           intros H. apply elem_of_cons in H. destruct H as [? | ?]; [congruence | tauto].
Qed.

(** What [deleteEmployee] leaves in the store. *)
Lemma deleteEmployee_run (username : string) (w : World) :
  exists w',
    deleteEmployee username w = (Ok tt, w') /\
    collectionData w' "users" = delete username (collectionData w "users") /\
    (forall id,
        collectionData w' "shifts" !! id
        = match collectionData w "shifts" !! id with
          | Some d =>
              if strict_eq (field d "username") (VStr username) then None else Some d
          | None => None
          end).
Proof.
  unfold deleteEmployee.
  destruct (collection_run "users" w) as (w1 & Hc1 & _ & Hd1 & _ & _).
  unfold bind at 1. rewrite Hc1.
  unfold bind at 1. unfold doc_delete at 1.
  set (w2 := set_collectionData "users" (delete username (collectionData w1 "users")) w1).
  destruct (collection_run "shifts" w2) as (w3 & Hc3 & _ & Hd3 & _ & _).
  unfold bind at 1. rewrite Hc3.
  destruct (where_get_run "shifts" "username" (VStr username) w3) as (docs & Hq & Hdocs).
  unfold bind at 1. rewrite Hq.
  destruct (delete_loop docs w3) as (w4 & Hloop & _ & Hother & Hsh).
  exists w4. split; [exact Hloop |].
  assert (Hshifts : collectionData w3 "shifts" = collectionData w "shifts").
  { rewrite Hd3. unfold w2. rewrite collectionData_set, decide_False by discriminate.
    apply Hd1. }
  split.
  - rewrite (Hother "users") by discriminate. rewrite Hd3. unfold w2.
    rewrite collectionData_set, decide_True by reflexivity. rewrite Hd1. reflexivity.
  - intros id. rewrite Hsh. rewrite <- Hshifts.
    destruct (collectionData w3 "shifts" !! id) as [d|] eqn:El.
    + destruct (strict_eq (field d "username") (VStr username)) eqn:P.
      * rewrite bool_decide_eq_true_2; [reflexivity |].
        apply list_elem_of_In, in_map_iff. exists (id, d).
        split; [reflexivity |]. apply Hdocs. split; assumption.
      * rewrite bool_decide_eq_false_2; [reflexivity |].
        intros Hin. apply list_elem_of_In, in_map_iff in Hin.
        destruct Hin as ([id' d'] & Hid & Hin). cbn [fst] in Hid. subst id'.
        apply Hdocs in Hin. destruct Hin as [Hl' Hp'].
        rewrite El in Hl'. injection Hl' as <-. rewrite P in Hp'. discriminate Hp'.
    + destruct (bool_decide _); reflexivity.
Qed.

(** [getShiftsForUser] finds nothing where no shift is the user's. *)
Lemma getShiftsForUser_none (username : string) (w : World) :
  (forall id d,
      collectionData w "shifts" !! id = Some d ->
      strict_eq (field d "username") (VStr username) = false) ->
  fst (getShiftsForUser username w) = Ok [].
Proof.
  intros Hnone. unfold getShiftsForUser.
  destruct (collection_run "shifts" w) as (w1 & Hc & _ & Hd & _ & _).
  unfold bind at 1. rewrite Hc.
  destruct (where_get_run "shifts" "username" (VStr username) w1) as (docs & Hq & Hdocs).
  unfold bind at 1. rewrite Hq.
  destruct docs as [|[id d] docs]; [reflexivity |].
  exfalso. destruct (proj1 (Hdocs id d) (or_introl eq_refl)) as [Hl Hp].
  rewrite Hd in Hl. rewrite (Hnone id d Hl) in Hp. discriminate Hp.
Qed.

End EmployeeFacts.

(** C8. After [deleteEmployee(username)], [getShiftsForUser(username)]
    returns the empty list: the user document is gone, no shift record is
    left whose [username] is the deleted one, and the shift records of
    the other users are all still there. *)
Theorem C8_deleteEmployee (username : string) (w : World) :
  let r := deleteEmployee username w in
  fst r = Ok tt
  /\ fst (getShiftsForUser username (snd r)) = Ok []
  /\ collectionData (snd r) "users" !! username = None
  /\ (forall id d,
        collectionData (snd r) "shifts" !! id = Some d ->
        strict_eq (field d "username") (VStr username) = false)
  /\ (forall id d,
        collectionData w "shifts" !! id = Some d ->
        strict_eq (field d "username") (VStr username) = false ->
        collectionData (snd r) "shifts" !! id = Some d).
Proof.
  intros r. subst r.
  destruct (deleteEmployee_run username w) as (w' & -> & Husers & Hshifts).
  cbn [fst snd].
  assert (Hgone : forall id d,
             collectionData w' "shifts" !! id = Some d ->
             strict_eq (field d "username") (VStr username) = false).
  { intros id d H. rewrite Hshifts in H.
    destruct (collectionData w "shifts" !! id) as [d0|]; [| discriminate H].
    destruct (strict_eq (field d0 "username") (VStr username)) eqn:P; [discriminate H |].
    injection H as <-. exact P. }
  split; [reflexivity |]. split; [| split; [| split]].
  - apply getShiftsForUser_none. exact Hgone.
  - rewrite Husers. apply lookup_delete_eq.
  - exact Hgone.
  - intros id d Hl Hp. rewrite Hshifts, Hl, Hp. reflexivity.
Qed.

(** C8 on a store with a shift of the deleted user and a shift of another. *)
Lemma C8_deleteEmployee_witness :
  let shift (u : string) : Doc := <["username" := VStr u]> (<["date" := VStr "2025-08-02"]> ∅) in
  let w :=
    mkWorld (<["shifts" := <["alice_2025-08-02" := shift "alice"]>
                            (<["bob_2025-08-02" := shift "bob"]> ∅)]> ∅) [] in
  let w' := snd (deleteEmployee "alice" w) in
  fst (getShiftsForUser "alice" w') = Ok []
  /\ collectionData w' "shifts" !! "bob_2025-08-02" = Some (shift "bob").
Proof.
  intros shift w w'.
  destruct (C8_deleteEmployee "alice" w) as (_ & Hnone & _ & _ & Hkept).
  split; [exact Hnone |].
  apply Hkept; vm_compute; exact eq_refl.
Defined.

Section AddEmployeeFacts.

Variable hashPassword : string -> string.

Lemma truthy_VStr (s : string) : truthy (VStr s) = true <-> s <> "".
Proof.
  cbn [truthy]. rewrite negb_true_iff. split.
  - intros H ->. discriminate H.
  - intros H. apply String.eqb_neq. exact H.
Qed.

(** [addEmployee] itself checks nothing: it writes the new record over
    whatever the key holds. *)
Lemma addEmployee_overwrites (username password : string) (hourlyRate : Q) (w : World) :
  collectionData (snd (addEmployee hashPassword username password hourlyRate w)) "users"
    !! username
  = Some (<["username" := VStr username]>
            (<["role" := VStr "employee"]>
               (<["hourlyRate" := VNum hourlyRate]>
                  (<["passwordHash" := VStr (hashPassword password)]> ∅)))).
Proof.
  unfold addEmployee.
  destruct (collection_run "users" w) as (w1 & Hc & _ & _ & _ & _).
  unfold bind. rewrite Hc. unfold doc_set. cbn [snd].
  rewrite collectionData_set, decide_True by reflexivity. apply lookup_insert_eq.
Qed.

End AddEmployeeFacts.

(** The submit handler on a username (trimmed) that is a key of the users
    collection: it leaves the whole store as it was; with a username and a
    password that are not empty its message is "Username already exists.",
    and with an empty one, which the [required] fields of the form keep
    from it, the message that asks for a username and password. *)
Lemma addForm_submit_existing (hashPassword : string -> string)
    (newUsername newPassword : string) (newRate : Q) (w : World) (existing : Doc) :
  collectionData w "users" !! trim newUsername = Some existing ->
  let r := addForm_submit hashPassword newUsername newPassword newRate w in
  snd r = w
  /\ (trim newUsername <> "" -> newPassword <> "" -> fst r = Ok "Username already exists.")
  /\ (trim newUsername = "" \/ newPassword = "" ->
      fst r = Ok "Please enter a username and password.").
Proof.
  intros Hex r. subst r. unfold addForm_submit.
  destruct (collectionData_Some _ _ _ _ Hex) as (m & Hm & _).
  destruct (collection_run "users" w) as (w1 & Hc & _ & _ & Hsame & _).
  rewrite (Hsame (ex_intro _ m Hm)) in Hc.
  assert (Hrun : (let* users := collection "users" in
                  let* exists_ := doc_get users (trim newUsername) in
                  if snap_exists exists_ then ret "Username already exists."
                  else
                    addEmployee hashPassword (trim newUsername) newPassword newRate ;;
                    ret (String.append "Employee "
                           (String.append (trim newUsername) " added."))) w
                 = (Ok "Username already exists.", w)).
  { unfold bind at 1. rewrite Hc. unfold bind at 1, doc_get. cbn [snap_exists].
    rewrite Hex. rewrite bool_decide_eq_true_2 by eauto. reflexivity. }
  destruct (truthy (VStr (trim newUsername))) eqn:Eu;
    destruct (truthy (VStr newPassword)) eqn:Ep; cbn [negb orb].
  - rewrite Hrun. split; [reflexivity |]. split; [reflexivity |].
    apply truthy_VStr in Eu, Ep. intros [H | H]; contradiction.
  - split; [reflexivity |]. split; [| reflexivity].
    intros _ Hp. apply truthy_VStr in Hp. congruence.
  - split; [reflexivity |]. split; [| reflexivity].
    intros Hu _. apply truthy_VStr in Hu. congruence.
  - split; [reflexivity |]. split; [| reflexivity].
    intros Hu _. apply truthy_VStr in Hu. congruence.
Qed.

(** C9.  Adding an employee is the "Add New Employee" form of the admin
    dashboard, whose submit handler is the one caller of [addEmployee].  For
    a username that is a key of the users collection, submitted with a
    password (the field is [required], and no key of the collection is
    empty: the form adds none), the attempt fails with "Username already
    exists." and the store is as it was: the existing record keeps its
    role, its hourly rate and its password hash. *)
Theorem C9_add_existing (hashPassword : string -> string)
    (newUsername newPassword : string) (newRate : Q) (w : World) (existing : Doc) :
  collectionData w "users" !! trim newUsername = Some existing ->
  trim newUsername <> "" ->
  newPassword <> "" ->
  let r := addForm_submit hashPassword newUsername newPassword newRate w in
  r = (Ok "Username already exists.", w)
  /\ collectionData (snd r) "users" !! trim newUsername = Some existing.
Proof.
  intros Hex Hu Hp r.
  destruct (addForm_submit_existing hashPassword newUsername newPassword newRate w existing Hex)
    as (Hw & Hmsg & _).
  fold r in Hw, Hmsg.
  assert (Hr : r = (Ok "Username already exists.", w)).
  { rewrite (surjective_pairing r), Hw, (Hmsg Hu Hp). reflexivity. }
  split; [exact Hr |]. rewrite Hw. exact Hex.
Qed.

(** C9 on a store that has the user: the form is turned down and the store is as it was. *)
Lemma C9_add_existing_witness :
  let alice : Doc :=
    <["username" := VStr "alice"]>
      (<["role" := VStr "employee"]>
         (<["hourlyRate" := VNum 20]> (<["passwordHash" := VStr "h1"]> ∅))) in
  let w := mkWorld (<["users" := <["alice" := alice]> ∅]> ∅) [] in
  addForm_submit (fun s => s) " alice " "secret" 25 w = (Ok "Username already exists.", w).
Proof.
  intros alice w.
  assert (Hex : collectionData w "users" !! trim " alice " = Some alice)
    by (vm_compute; exact eq_refl).
  destruct (C9_add_existing (fun s => s) " alice " "secret" 25 w alice Hex) as (Hr & _).
  - vm_compute. discriminate.
  - discriminate.
  - exact Hr.
Defined.
